(** * SaGe SPARQL server: the HTTP query interface and the gRPC servicer

    A shallow embedding of [sage/http_server/sparql_interface.py]
    ([execute_query], [sparql_index], [sparql_query]) and of
    [sage/grpc/service_pb2_grpc.py] ([SageSPARQLServicer.Query],
    [add_SageSPARQLServicer_to_server]).

    The handlers are sequential Python code that calls into the rest of the
    server (dataset registry, saved-plan store, plan loader, parser, engine,
    response encoders) and that relies on [try]/[except].  They are embedded
    in a small monad that threads the mutable server state, can raise, and
    records the calls a request performs on its collaborators. *)

From Stdlib Require Import ZArith QArith.
From stdpp Require Import base option gmap strings list pretty.

Local Open Scope Z_scope.
Local Open Scope string_scope.
Local Open Scope list_scope.

(** ** Python exceptions *)

Inductive exn :=
| UnsupportedSPARQL (msg : string)     (* sage.query_engine.exceptions *)
| InvalidContinuation                  (* a continuation that names no saved plan *)
| NotImplementedError (msg : string)
| AttributeError (msg : string)
| KeyError (key : string)
| HTTPException (code : Z)             (* raised by flask's abort(code) *)
| OtherException (msg : string).       (* any other subclass of Exception *)

(** [str(err)] *)
Definition str_exn (e : exn) : string :=
  match e with
  | UnsupportedSPARQL msg => msg
  | InvalidContinuation => "InvalidContinuation"
  | NotImplementedError msg => msg
  | AttributeError msg => msg
  | KeyError key => "'" +:+ key +:+ "'"
  | HTTPException code => "HTTPException"
  | OtherException msg => msg
  end.

Inductive result (A : Type) :=
| Ok (a : A)
| Raise (e : exn).
Arguments Ok {A} a.
Arguments Raise {A} e.

(** ** Graphs of the dataset *)

(** An entry of [graph.example_queries]. *)
Record ExampleQuery := {
  eq_name : string;
  eq_value : string;
  eq_publish : bool
}.

(** A graph handle as the handlers use it: its attributes [quota]
    (milliseconds), [max_results] and [example_queries].  Its methods
    ([commit], [abort], [describe], [config]) belong to the backend and are
    part of the [World] below. *)
Record Graph := {
  graph_name : string;
  quota : Z;
  max_results : Z;
  example_queries : list ExampleQuery
}.

(** ** Responses *)

(** [stats = {"cardinalities": .., "import": .., "export": ..}]; the times
    are Python floats, kept as rationals. *)
Record Stats := {
  cardinalities : gmap string Z;
  import : Q;
  export : Q
}.

(** The server state a request can change: the saved-plan store of a
    stateful dataset, and how many UUIDs and clock readings were drawn. *)
Record ServerState := {
  plans : gmap string string;
  uuids_drawn : nat;
  clock_reads : nat
}.

(** The gRPC [context] object of one call. *)
Inductive StatusCode := OK | UNIMPLEMENTED.

Record ServicerContext := {
  code : option StatusCode;
  details : option string
}.

Section Model.

(** What the HTTP layer never looks into: physical plans, serialized
    (protobuf) saved plans, solution sequences, parsed JSON payloads. *)
Variables (Plan SavedPlan Bindings Json : Type).

(** The bodies produced by [sage.http_server.responses] and by
    [format_marshmallow_errors]: kept as the call itself, rendering is the
    encoders' business. *)
Inductive Body :=
| w3c_json_streaming (bindings : Bindings) (next_page : option string) (stats : Stats) (url : string)
| w3c_xml (bindings : Bindings) (next_page : option string) (stats : Stats)
| raw_json_streaming (bindings : Bindings) (next_page : option string) (stats : Stats) (url : string)
| format_marshmallow_errors (err : gmap string string).

(** The templates handed to [render_template]. *)
Inductive Template :=
| sage_page (query default_graph_uri : option string) (bindings : Bindings)
            (next_page : option string) (stats : Stats)
| sage_dataset (dataset_info : gmap string string) (void_desc : gmap string string)
               (to_publish : option string) (queries : list ExampleQuery).

Inductive HttpResponse :=
| Response (body : Body) (content_type : option string) (status : option Z)
           (headers : list (string * string))
| sage_http_error (text : string)
| render_template (template : Template).

(** ** What a request does to its collaborators *)

Inductive Event :=
| GraphCommit (g : Graph)
| GraphAbort (g : Graph)
| GetPlan (plan_id : string)
| SavePlan (plan_id : string) (token : string)
| DeletePlan (plan_id : string)
| DecodeSavedPlan (token : string)
| EngineExecute (plan : Plan) (quota : Q) (max_results : Z)
| LoggingError (err : exn)
| LoggingDebug (msg : string).

(** ** The monad of the handlers

    A computation runs from a state, ends by returning or by raising, and
    leaves a state and the list of the calls it made.  A raise keeps the
    state and the calls made so far: Python does not roll anything back. *)

Definition M (S A : Type) : Type := S -> result A * S * list Event.

Definition ret {S A} (a : A) : M S A := fun s => (Ok a, s, []).

Definition raise {S A} (e : exn) : M S A := fun s => (Raise e, s, []).

Definition bind {S A B} (m : M S A) (f : A -> M S B) : M S B :=
  fun s =>
    match m s with
    | (Ok a, s1, ev1) =>
        match f a s1 with
        | (r, s2, ev2) => (r, s2, ev1 ++ ev2)
        end
    | (Raise e, s1, ev1) => (Raise e, s1, ev1)
    end.

(** [try: m except Exception as err: handler err] *)
Definition try_except {S A} (m : M S A) (handler : exn -> M S A) : M S A :=
  fun s =>
    match m s with
    | (Ok a, s1, ev1) => (Ok a, s1, ev1)
    | (Raise e, s1, ev1) =>
        match handler e s1 with
        | (r, s2, ev2) => (r, s2, ev1 ++ ev2)
        end
    end.

Definition emit {S} (ev : Event) : M S unit := fun s => (Ok tt, s, [ev]).

Definition get {S} : M S S := fun s => (Ok s, s, []).

Definition put {S} (s' : S) : M S unit := fun _ => (Ok tt, s', []).

(** The value of a call that either returns or raises. *)
Definition call {S A} (r : result A) : M S A :=
  match r with
  | Ok a => ret a
  | Raise e => raise e
  end.

(** A call that builds [a] unless it raises. *)
Definition build {S A} (fault : option exn) (a : A) : M S A :=
  match fault with
  | Some e => raise e
  | None => ret a
  end.

Notation "x <- m ;; k" := (bind m (fun x => k))
  (at level 100, m at next level, right associativity, only parsing).
Notation "m ;; k" := (bind m (fun _ => k))
  (at level 100, right associativity, only parsing).

(** ** The collaborators of the HTTP layer

    Everything the handlers call that lives elsewhere in the server, in
    flask or in the standard library.  A call returns or raises; the
    response constructors only build their value ([Body], [HttpResponse])
    unless they raise. *)

Record World := {
  (* sage.http_server.utils *)
  format_graph_uri : option string -> string -> result string;
  secure_url : string -> result string;
  encode_saved_plan : option SavedPlan -> result string;
  decode_saved_plan : string -> result SavedPlan;
  (* sage_http_error, render_template and the encoders of
     sage.http_server.responses, when they raise *)
  page_fault : HttpResponse -> option exn;
  body_fault : Body -> option exn;
  (* the dataset *)
  is_stateless : bool;
  has_graph : string -> result bool;
  get_graph : string -> result (option Graph);
  (* sage.query_engine *)
  load : SavedPlan -> result Plan;
  parse_query : option string -> string -> string -> result (Plan * gmap string Z);
  build_query_plan : option string -> string -> option string -> result (Plan * gmap string Z);
  engine_execute : Plan -> Q -> Z ->
                   result (Bindings * option SavedPlan * bool * option string);
  (* the backend of a graph *)
  commit_fault : Graph -> option exn;
  abort_fault : Graph -> option exn;
  graph_describe : Graph -> string -> result (gmap string string);
  graph_config : Graph -> result (gmap string bool);
  void_describe : string -> Graph -> string -> result string;
  (* sage.http_server.schema *)
  SageSparqlQuery_load : Json -> result (gmap string (option string) * option (gmap string string));
  QueryRequest_load : Json -> result (gmap string (option string) * option (gmap string string));
  (* json.dumps, uuid.uuid4, time.time *)
  dumps : gmap string string -> result string;
  uuids : nat -> string;
  clock : nat -> Q
}.

(** flask's [request] *)
Record Request := {
  method : string;
  args : gmap string string;
  is_json : bool;
  get_json : result Json;
  base_url : string;
  req_url : string;
  best_match : list string -> option string
}.

Variable w : World.

(** [graph.commit()], [graph.abort()] *)
Definition graph_commit {S} (g : Graph) : M S unit :=
  emit (GraphCommit g);; build (commit_fault w g) tt.

Definition graph_abort {S} (g : Graph) : M S unit :=
  emit (GraphAbort g);; build (abort_fault w g) tt.

(** An attribute of [graph], which may still be [None]. *)
Definition getattr {S} (graph : option Graph) (name : string) : M S Graph :=
  match graph with
  | Some g => ret g
  | None => raise (AttributeError ("'NoneType' object has no attribute '" +:+ name +:+ "'"))
  end.

(** [d[key]] *)
Definition getitem {S V} (d : gmap string V) (key : string) : M S V :=
  match d !! key with
  | Some v => ret v
  | None => raise (KeyError key)
  end.

(** flask's [abort(code)] *)
Definition abort {S A} (code : Z) : M S A := raise (HTTPException code).

(** [time()] *)
Definition time : M ServerState Q :=
  s <- get;;
  put {| plans := plans s; uuids_drawn := uuids_drawn s; clock_reads := S (clock_reads s) |};;
  ret (clock w (clock_reads s)).

(** [str(uuid4())] *)
Definition str_uuid4 : M ServerState string :=
  s <- get;;
  put {| plans := plans s; uuids_drawn := S (uuids_drawn s); clock_reads := clock_reads s |};;
  ret (uuids w (uuids_drawn s)).

(** Modelled from the spec: the saved-plan store [dataset.statefull_manager]
    ([get_plan], [save_plan], [delete_plan]) is not among the sources.  It
    is a map from continuation ids to encoded plans with the contract
    [save(id, token)], [get(id) -> token | miss], [delete(id)]; saving
    replaces what the id held, and a continuation that references a missing
    saved plan is the error [InvalidContinuation]. *)
Definition get_plan (plan_id : string) : M ServerState string :=
  emit (GetPlan plan_id);;
  s <- get;;
  match plans s !! plan_id with
  | Some token => ret token
  | None => raise InvalidContinuation
  end.

(** Modelled from the spec: [save(id, token)] of the saved-plan store, which
    is not among the sources; it replaces what the id held. *)
Definition save_plan (plan_id token : string) : M ServerState unit :=
  emit (SavePlan plan_id token);;
  s <- get;;
  put {| plans := <[plan_id := token]> (plans s);
         uuids_drawn := uuids_drawn s; clock_reads := clock_reads s |}.

(** Modelled from the spec: [delete(id)] of the saved-plan store, which is
    not among the sources. *)
Definition delete_plan (plan_id : string) : M ServerState unit :=
  emit (DeletePlan plan_id);;
  s <- get;;
  put {| plans := delete plan_id (plans s);
         uuids_drawn := uuids_drawn s; clock_reads := clock_reads s |}.

(** ** [execute_query] *)

(** The [except Exception as err] clause of [execute_query]: abort the
    transaction of [graph] when one was resolved, then raise [err] again. *)
Definition execute_query_except (graph : option Graph) (err : exn)
  : M ServerState HttpResponse :=
  (match graph with
   | Some g => graph_abort g
   | None => ret tt
   end);;
  raise err.

(** The [try] block of [execute_query] from the assignment of [graph] on
    (lines 31-82). *)
Definition execute_query_body (query default_graph_uri next_link : option string)
    (graph : option Graph) (graph_name : string)
    (mimetype : option string) (url : string) : M ServerState HttpResponse :=
  (* decode next_link or build query execution plan *)
  let cardinalities : gmap string Z := ∅ in
  start <- time;;
  loaded <-
    match next_link with
    | Some next_link =>
        saved_plan <- (if is_stateless w then ret next_link else get_plan next_link);;
        emit (DecodeSavedPlan saved_plan);;
        decoded <- call (decode_saved_plan w saved_plan);;
        plan <- call (load w decoded);;
        ret (plan, cardinalities)
    | None => call (parse_query w query graph_name url)
    end;;
  let '(plan, cardinalities) := loaded in
  now <- time;;
  let loading_time := ((now - start) * 1000)%Q in
  (* execute query; [engine = SageEngine()].  Python's [/] on an int gives
     the float nearest to the exact quotient, kept here as that quotient. *)
  g <- getattr graph "quota";;
  let quota := (inject_Z (quota g) / 1000)%Q in
  let max_results := max_results g in
  emit (EngineExecute plan quota max_results);;
  executed <- call (engine_execute w plan quota max_results);;
  let '(bindings, saved_plan, is_done, abort_reason) := executed in
  (* commit or abort (if necessary) *)
  match abort_reason with
  | Some reason =>
      graph_abort g;;
      let text := "The SPARQL query has been aborted for the following reason: '"
                  +:+ reason +:+ "'" in
      build (page_fault w (sage_http_error text)) (sage_http_error text)
  | None =>
      graph_commit g;;
      start <- time;;
      (* encode saved plan if query execution is not done yet and there was no abort *)
      next_page <-
        (if negb is_done && bool_decide (abort_reason = None) then
           next_page <- call (encode_saved_plan w saved_plan);;
           if negb (is_stateless w) then
             (* generate the plan id if this is the first time we execute this plan *)
             plan_id <- match next_link with
                        | Some next_link => ret next_link
                        | None => str_uuid4
                        end;;
             save_plan plan_id next_page;;
             ret (Some plan_id)
           else ret (Some next_page)
         else if is_done && negb (is_stateless w) then
           match next_link with
           | Some next_link =>
               (* delete the saved plan, as it will not be reloaded anymore *)
               delete_plan next_link;; ret None
           | None => ret None
           end
         else ret None);;
      now <- time;;
      let exportTime := ((now - start) * 1000)%Q in
      let stats := {| cardinalities := cardinalities; import := loading_time;
                      export := exportTime |} in
      (* send response *)
      if bool_decide (mimetype = Some "application/sparql-results+json") then
        body <- build (body_fault w (w3c_json_streaming bindings next_page stats url))
                      (w3c_json_streaming bindings next_page stats url);;
        ret (Response body (Some "application/json") None [])
      else if bool_decide (mimetype = Some "application/xml")
              || bool_decide (mimetype = Some "application/sparql-results+xml") then
        body <- build (body_fault w (w3c_xml bindings next_page stats))
                      (w3c_xml bindings next_page stats);;
        ret (Response body (Some "application/xml") None [])
      else if bool_decide (mimetype = Some "application/json") then
        body <- build (body_fault w (raw_json_streaming bindings next_page stats url))
                      (raw_json_streaming bindings next_page stats url);;
        ret (Response body (Some "application/json") None [])
      else
        (* otherwise, return the HTML version *)
        let page := render_template
                      (sage_page query default_graph_uri bindings next_page stats) in
        build (page_fault w page) page
  end.

(** [execute_query(query, default_graph_uri, next_link, dataset, mimetype, url)];
    the dataset is the [World].  The local [graph] is [None] until
    [dataset.get_graph] has returned, so a raise before that point reaches
    the [except] clause with [graph = None] and a raise after it with the
    resolved graph. *)
Definition execute_query (query default_graph_uri next_link : option string)
    (mimetype : option string) (url : string) : M ServerState HttpResponse :=
  try_except
    (graph_name <- call (format_graph_uri w default_graph_uri url);;
     known <- call (has_graph w graph_name);;
     if negb known then
       let page := sage_http_error
                     "No RDF graph matching the default URI provided was found." in
       build (page_fault w page) page
     else
       graph <- call (get_graph w graph_name);;
       try_except
         (execute_query_body query default_graph_uri next_link graph graph_name mimetype url)
         (execute_query_except graph))
    (execute_query_except None).

(** ** The blueprint: [/sparql] and the deprecated [/sparql/<graph_name>] *)

(** [v or None] for the value of [request.args.get(..)] *)
Definition or_None (v : option string) : option string :=
  match v with
  | Some s => if bool_decide (s = "") then None else Some s
  | None => None
  end.

(** [err is not None and len(err) > 0] *)
Definition has_errors (err : option (gmap string string)) : bool :=
  match err with
  | Some e => bool_decide (0 < size e)%nat
  | None => false
  end.

Definition invalid_request : string :=
  "Invalid request sent to server: a GET request must contains both parameters 'query' and 'default-graph-uri'. See <a href='http://sage.univ-nantes.fr/documentation'>the API documentation</a> for reference.".

(** The [try] block of [sparql_index]. *)
Definition sparql_index_body (request : Request) (mimetype : option string)
  : M ServerState HttpResponse :=
  url <- call (secure_url w (base_url request));;
  (* parse arguments *)
  if bool_decide (method request = "GET") then
    let query := or_None (args request !! "query") in
    let default_graph_uri := or_None (args request !! "default-graph-uri") in
    let next_link := or_None (args request !! "next") in
    (* ensure that both the query and default-graph-uri params are set *)
    if (bool_decide (query = None) || bool_decide (default_graph_uri = None))
       && (bool_decide (next_link = None) || bool_decide (default_graph_uri = None)) then
      build (page_fault w (sage_http_error invalid_request)) (sage_http_error invalid_request)
    else
      (* execute query *)
      execute_query query default_graph_uri next_link mimetype url
  else if bool_decide (method request = "POST") && is_json request then
    (* POST query *)
    payload <- call (get_json request);;
    loaded <- call (SageSparqlQuery_load w payload);;
    let '(post_query, err) := loaded in
    if has_errors err then
      body <- build (body_fault w (format_marshmallow_errors (default ∅ err)))
                    (format_marshmallow_errors (default ∅ err));;
      ret (Response body None (Some 400) [])
    else
      query <- getitem post_query "query";;
      default_graph_uri <- getitem post_query "defaultGraph";;
      let next_link := default None (post_query !! "next") in
      (* execute query *)
      execute_query query default_graph_uri next_link mimetype url
  else
    build (page_fault w (sage_http_error invalid_request)) (sage_http_error invalid_request).

Definition mimetypes_index : list string :=
  ["application/json"; "application/xml";
   "application/sparql-results+json"; "application/sparql-results+xml";
   "text/html"].

(** [sparql_index()], the route [/sparql].  The clause for
    [UnsupportedSPARQL] comes first; every other exception ends in
    [abort(500)]. *)
Definition sparql_index (request : Request) : M ServerState HttpResponse :=
  let mimetype := best_match request mimetypes_index in
  try_except
    (sparql_index_body request mimetype)
    (fun err =>
       match err with
       | UnsupportedSPARQL _ =>
           emit (LoggingError err);;
           build (page_fault w (sage_http_error (str_exn err)))
                 (sage_http_error (str_exn err))
       | _ =>
           emit (LoggingError err);;
           abort 500
       end).

Definition mimetypes_query : list string :=
  ["application/json"; "application/xml";
   "application/sparql-results+json"; "application/sparql-results+xml"].

(** The double quote, which the warning header carries escaped. *)
Definition dquote : string := String (Ascii.ascii_of_nat 34) EmptyString.

Definition deprecation_warning : string * string :=
  ("Warning",
   "199 SaGe/2.0 " +:+ dquote +:+
   "You are using a deprecated API. Consider uppgrading to the SaGe SPARQL query API. See http://sage.univ-nantes.fr/documentation fore more details."
   +:+ dquote).


(** The [try] block of [sparql_query]; [graph] is not [None] here. *)
Definition sparql_query_body (request : Request) (graph_name : string) (graph : Graph)
    (mimetype : option string) (url : string) : M ServerState HttpResponse :=
  (* A GET request always returns the homepage of the dataset *)
  if bool_decide (method request = "GET") || negb (is_json request) then
    dinfo <- call (graph_describe w graph url);;
    config <- call (graph_config w graph);;
    publish <- getitem config "publish";;
    to_publish <- (if publish : bool then
                     dumped <- call (dumps w dinfo);; ret (Some dumped)
                   else ret None);;
    let dinfo := <["@id" := url]> dinfo in
    nt <- call (void_describe w url graph "ntriples");;
    ttl <- call (void_describe w url graph "turtle");;
    xml <- call (void_describe w url graph "xml");;
    let void_desc : gmap string string :=
      <["nt" := nt]> (<["ttl" := ttl]> (<["xml" := xml]> ∅)) in
    let queries := List.filter eq_publish (example_queries graph) in
    let page := render_template (sage_dataset dinfo void_desc to_publish queries) in
    build (page_fault w page) page
  else
    (* engine = SageEngine() *)
    payload <- call (get_json request);;
    loaded <- call (QueryRequest_load w payload);;
    let '(post_query, err) := loaded in
    if has_errors err then
      body <- build (body_fault w (format_marshmallow_errors (default ∅ err)))
                    (format_marshmallow_errors (default ∅ err));;
      ret (Response body None (Some 400) [])
    else
      let quota := (inject_Z (quota graph) / 1000)%Q in
      let max_results := max_results graph in
      (* Load next link *)
      let next_link : option string := None in
      (match post_query !! "next" with
       | Some (Some next) =>
           saved_plan <- (if is_stateless w then ret next else get_plan next);;
           emit (DecodeSavedPlan saved_plan);;
           decoded <- call (decode_saved_plan w saved_plan);;
           plan <- call (load w decoded);;
           ret tt
       | _ => ret tt
       end);;
      (* build physical query plan, then execute it with the given quota *)
      start <- time;;
      query <- getitem post_query "query";;
      built <- call (build_query_plan w query graph_name next_link);;
      let '(plan, cardinalities) := built in
      now <- time;;
      let loading_time := ((now - start) * 1000)%Q in
      emit (EngineExecute plan quota max_results);;
      executed <- call (engine_execute w plan quota max_results);;
      let '(bindings, saved_plan, is_done, abort_reason) := executed in
      (* commit or abort (if necessary) *)
      match abort_reason with
      | Some reason =>
          graph_abort graph;;
          let text := "The SPARQL query has been aborted for the following reason: '"
                      +:+ reason +:+ "'" in
          build (page_fault w (sage_http_error text)) (sage_http_error text)
      | None =>
          graph_commit graph;;
          start <- time;;
          (* encode saved plan if query execution is not done yet and there was no abort *)
          next_page <-
            (if negb is_done && bool_decide (abort_reason = None) then
               next_page <- call (encode_saved_plan w saved_plan);;
               if negb (is_stateless w) then
                 (* generate the plan id if this is the first time we execute this plan *)
                 plan_id <- match next_link with
                            | Some next_link => ret next_link
                            | None => str_uuid4
                            end;;
                 save_plan plan_id next_page;;
                 ret (Some plan_id)
               else ret (Some next_page)
             else if is_done && negb (is_stateless w) then
               match next_link with
               | Some next_link =>
                   (* delete the saved plan, as it will not be reloaded anymore *)
                   delete_plan next_link;; ret None
               | None => ret None
               end
             else ret None);;
          now <- time;;
          let exportTime := ((now - start) * 1000)%Q in
          let stats := {| cardinalities := cardinalities; import := loading_time;
                          export := exportTime |} in
          (* the first [if] stands alone: its result is overwritten below *)
          (if bool_decide (mimetype = Some "application/sparql-results+json") then
             build (body_fault w (w3c_json_streaming bindings next_page stats url)) tt
           else ret tt);;
          res <-
            (if bool_decide (mimetype = Some "application/xml")
                || bool_decide (mimetype = Some "application/sparql-results+xml") then
               body <- build (body_fault w (w3c_xml bindings next_page stats))
                             (w3c_xml bindings next_page stats);;
               ret (body, Some "application/xml")
             else
               body <- build (body_fault w (raw_json_streaming bindings next_page stats url))
                             (raw_json_streaming bindings next_page stats url);;
               ret (body, Some "application/json"));;
          (* set deprecation warning in headers *)
          ret (Response (fst res) (snd res) None [deprecation_warning])
      end.

(** [sparql_query(graph_name)], the deprecated route [/sparql/<graph_name>]. *)
Definition sparql_query (request : Request) (graph_name : string)
  : M ServerState HttpResponse :=
  graph <- call (get_graph w graph_name);;
  match graph with
  | None => abort 404
  | Some graph =>
      emit (LoggingDebug "[/sparql/] Corresponding dataset found");;
      let mimetype := best_match request mimetypes_query in
      url <- call (secure_url w (req_url request));;
      try_except
        (sparql_query_body request graph_name graph mimetype url)
        (fun err =>
           (* abort all ongoing transactions, then abort the HTTP request *)
           graph_abort graph;;
           emit (LoggingError err);;
           abort 500)
  end.

(** ** The gRPC service *)

Definition set_code (c : StatusCode) : M ServicerContext unit :=
  context <- get;;
  put {| code := Some c; details := details context |}.

Definition set_details (d : string) : M ServicerContext unit :=
  context <- get;;
  put {| code := code context; details := Some d |}.

(** [SageSPARQLServicer.Query(self, request, context)]; the state of the
    computation is the [context] object. *)
Definition Query {SageQuery SageResponse : Type} (request : SageQuery)
  : M ServicerContext SageResponse :=
  set_code UNIMPLEMENTED;;
  set_details "Method not implemented!";;
  raise (NotImplementedError "Method not implemented!").

(** A servicer object as [add_SageSPARQLServicer_to_server] uses it: through
    its attribute [Query], which is the method above for an instance of
    [SageSPARQLServicer] itself and the class's own for an instance of a
    subclass that overrides it. *)
Record Servicer {SageQuery SageResponse : Type} := {
  servicer_Query : SageQuery -> M ServicerContext SageResponse
}.

(** [SageSPARQLServicer()], an instance of the class as the file has it. *)
Definition SageSPARQLServicer {SageQuery SageResponse : Type}
  : @Servicer SageQuery SageResponse :=
  {| servicer_Query := Query |}.

(** The functions of [service_pb2] that turn messages into bytes and back,
    kept by name. *)
Inductive Codec :=
| SageQuery_FromString
| SageQuery_SerializeToString
| SageResponse_FromString
| SageResponse_SerializeToString.

(** [grpc.unary_unary_rpc_method_handler(behavior, request_deserializer,
    response_serializer)], kept as the call. *)
Record RpcMethodHandler {SageQuery SageResponse : Type} := {
  unary_unary : SageQuery -> M ServicerContext SageResponse;
  request_deserializer : Codec;
  response_serializer : Codec
}.

(** [grpc.method_handlers_generic_handler(service, method_handlers)], kept
    as the call. *)
Record GenericRpcHandler {SageQuery SageResponse : Type} := {
  service : string;
  method_handlers : gmap string (@RpcMethodHandler SageQuery SageResponse)
}.

(** The [server] object, as far as registration goes: the generic handlers
    that were added to it. *)
Record GrpcServer {SageQuery SageResponse : Type} := {
  generic_rpc_handlers : list (@GenericRpcHandler SageQuery SageResponse)
}.

(** [server.add_generic_rpc_handlers(handlers)] *)
Definition add_generic_rpc_handlers {SageQuery SageResponse : Type}
    (handlers : list (@GenericRpcHandler SageQuery SageResponse))
  : M (@GrpcServer SageQuery SageResponse) unit :=
  server <- get;;
  put {| generic_rpc_handlers := generic_rpc_handlers server ++ handlers |}.

(** [rpc_method_handlers] of [add_SageSPARQLServicer_to_server]: the one
    method ['Query'], answered by [servicer.Query]. *)
Definition rpc_method_handlers {SageQuery SageResponse : Type}
    (servicer : @Servicer SageQuery SageResponse)
  : gmap string (@RpcMethodHandler SageQuery SageResponse) :=
  {[ "Query" := {| unary_unary := servicer_Query servicer;
                   request_deserializer := SageQuery_FromString;
                   response_serializer := SageResponse_SerializeToString |} ]}.

(** [add_SageSPARQLServicer_to_server(servicer, server)] *)
Definition add_SageSPARQLServicer_to_server {SageQuery SageResponse : Type}
    (servicer : @Servicer SageQuery SageResponse)
  : M (@GrpcServer SageQuery SageResponse) unit :=
  let generic_handler :=
    {| service := "sage.SageSPARQL";
       method_handlers := rpc_method_handlers servicer |} in
  add_generic_rpc_handlers [generic_handler].

End Model.

Arguments w3c_json_streaming {Bindings}.
Arguments w3c_xml {Bindings}.
Arguments raw_json_streaming {Bindings}.
Arguments format_marshmallow_errors {Bindings}.
Arguments sage_page {Bindings}.
Arguments sage_dataset {Bindings}.
Arguments Response {Bindings}.
Arguments sage_http_error {Bindings}.
Arguments render_template {Bindings}.
Arguments GraphCommit {Plan}.
Arguments GraphAbort {Plan}.
Arguments GetPlan {Plan}.
Arguments SavePlan {Plan}.
Arguments DeletePlan {Plan}.
Arguments DecodeSavedPlan {Plan}.
Arguments EngineExecute {Plan}.
Arguments LoggingError {Plan}.
Arguments LoggingDebug {Plan}.
Arguments ret {Plan S A}.
Arguments raise {Plan S A}.
Arguments bind {Plan S A B}.
Arguments try_except {Plan S A}.
Arguments emit {Plan S}.
Arguments get {Plan S}.
Arguments put {Plan S}.
Arguments call {Plan S A}.
Arguments build {Plan S A}.
Arguments execute_query {Plan SavedPlan Bindings Json}.
Arguments sparql_index {Plan SavedPlan Bindings Json}.
Arguments sparql_query {Plan SavedPlan Bindings Json}.
Arguments Query {Plan SageQuery SageResponse}.
Arguments Servicer : clear implicits.
Arguments Build_Servicer {Plan SageQuery SageResponse}.
Arguments servicer_Query {Plan SageQuery SageResponse}.
Arguments SageSPARQLServicer {Plan SageQuery SageResponse}.
Arguments RpcMethodHandler : clear implicits.
Arguments Build_RpcMethodHandler {Plan SageQuery SageResponse}.
Arguments unary_unary {Plan SageQuery SageResponse}.
Arguments request_deserializer {Plan SageQuery SageResponse}.
Arguments response_serializer {Plan SageQuery SageResponse}.
Arguments GenericRpcHandler : clear implicits.
Arguments Build_GenericRpcHandler {Plan SageQuery SageResponse}.
Arguments service {Plan SageQuery SageResponse}.
Arguments method_handlers {Plan SageQuery SageResponse}.
Arguments GrpcServer : clear implicits.
Arguments Build_GrpcServer {Plan SageQuery SageResponse}.
Arguments generic_rpc_handlers {Plan SageQuery SageResponse}.
Arguments add_generic_rpc_handlers {Plan SageQuery SageResponse}.
Arguments rpc_method_handlers {Plan SageQuery SageResponse}.
Arguments add_SageSPARQLServicer_to_server {Plan SageQuery SageResponse}.
Arguments format_graph_uri {Plan SavedPlan Bindings Json} w.
Arguments secure_url {Plan SavedPlan Bindings Json} w.
Arguments encode_saved_plan {Plan SavedPlan Bindings Json} w.
Arguments decode_saved_plan {Plan SavedPlan Bindings Json} w.
Arguments page_fault {Plan SavedPlan Bindings Json} w.
Arguments body_fault {Plan SavedPlan Bindings Json} w.
Arguments is_stateless {Plan SavedPlan Bindings Json} w.
Arguments has_graph {Plan SavedPlan Bindings Json} w.
Arguments get_graph {Plan SavedPlan Bindings Json} w.
Arguments load {Plan SavedPlan Bindings Json} w.
Arguments parse_query {Plan SavedPlan Bindings Json} w.
Arguments build_query_plan {Plan SavedPlan Bindings Json} w.
Arguments engine_execute {Plan SavedPlan Bindings Json} w.
Arguments commit_fault {Plan SavedPlan Bindings Json} w.
Arguments abort_fault {Plan SavedPlan Bindings Json} w.
Arguments graph_describe {Plan SavedPlan Bindings Json} w.
Arguments graph_config {Plan SavedPlan Bindings Json} w.
Arguments void_describe {Plan SavedPlan Bindings Json} w.
Arguments SageSparqlQuery_load {Plan SavedPlan Bindings Json} w.
Arguments QueryRequest_load {Plan SavedPlan Bindings Json} w.
Arguments dumps {Plan SavedPlan Bindings Json} w.
Arguments uuids {Plan SavedPlan Bindings Json} w.
Arguments clock {Plan SavedPlan Bindings Json} w.
Arguments Build_World {Plan SavedPlan Bindings Json}.
Arguments method {Json} r.
Arguments args {Json} r.
Arguments is_json {Json} r.
Arguments get_json {Json} r.
Arguments base_url {Json} r.
Arguments req_url {Json} r.
Arguments best_match {Json} r.
Arguments Build_Request {Json}.

(** ** Reading the run of a handler *)

Definition outcome {Plan S A} (run : result A * S * list (Event Plan)) : result A :=
  run.1.1.

Definition final {Plan S A} (run : result A * S * list (Event Plan)) : S :=
  run.1.2.

Definition events {Plan S A} (run : result A * S * list (Event Plan)) : list (Event Plan) :=
  run.2.

(** The transaction operations among the calls of a request. *)
Definition is_transaction {Plan} (ev : Event Plan) : bool :=
  match ev with
  | GraphCommit _ | GraphAbort _ => true
  | _ => false
  end.

Definition transactions {Plan} (evs : list (Event Plan)) : list (Event Plan) :=
  List.filter is_transaction evs.

(** [next] and [stats] as a response carries them. *)
Definition next_of {Bindings} (resp : HttpResponse Bindings) : option string :=
  match resp with
  | Response (w3c_json_streaming _ next_page _ _) _ _ _ => next_page
  | Response (w3c_xml _ next_page _) _ _ _ => next_page
  | Response (raw_json_streaming _ next_page _ _) _ _ _ => next_page
  | render_template (sage_page _ _ _ next_page _) => next_page
  | _ => None
  end.

Definition stats_of {Bindings} (resp : HttpResponse Bindings) : option Stats :=
  match resp with
  | Response (w3c_json_streaming _ _ stats _) _ _ _ => Some stats
  | Response (w3c_xml _ _ stats) _ _ _ => Some stats
  | Response (raw_json_streaming _ _ stats _) _ _ _ => Some stats
  | render_template (sage_page _ _ _ _ stats) => Some stats
  | _ => None
  end.

(** A call that returns. *)
Definition returns {A} (r : result A) : Prop :=
  match r with
  | Ok _ => True
  | Raise _ => False
  end.

(** ** A small dataset to run the handlers on

    One graph, ["bsbm"], with a quota of 75000 ms and pages of at most 2000
    solutions.  Plans, saved plans and solutions are strings here; saved
    plans are encoded as themselves, and the token ["corrupt"] does not
    decode. *)

Module Demo.

Definition bsbm : Graph :=
  {| graph_name := "bsbm"; quota := 75000; max_results := 2000;
     example_queries :=
       [ {| eq_name := "all"; eq_value := "SELECT * WHERE { ?s ?p ?o }"; eq_publish := true |} ] |}.

Definition Engine : Type :=
  string -> Q -> Z -> result (list string * option string * bool * option string).

(** Three engines: one that finishes, one that is suspended, one that aborts. *)
Definition finishing : Engine :=
  fun plan _ _ => Ok (["s1"; "s2"], None, true, None).

Definition suspending : Engine :=
  fun plan _ _ => Ok (["s1"], Some ("rest of " +:+ plan), false, None).

Definition aborting : Engine :=
  fun plan _ _ => Ok ([], None, false, Some "backend unreachable").

Definition encode_ok (saved : option string) : result string :=
  Ok (default "" saved).


Definition world (stateless : bool) (engine : Engine)
    (encode : option string -> result string)
  : World string string (list string) (gmap string (option string)) :=
  {| format_graph_uri := fun default_graph_uri url =>
       match default_graph_uri with
       | Some uri => Ok uri
       | None => Raise (OtherException "no default graph")
       end;
     secure_url := fun url => Ok url;
     encode_saved_plan := encode;
     decode_saved_plan := fun token =>
       if bool_decide (token = "corrupt")
       then Raise (OtherException "cannot decode the saved plan")
       else Ok token;
     page_fault := fun _ => None;
     body_fault := fun _ => None;
     is_stateless := stateless;
     has_graph := fun name => Ok (bool_decide (name = "bsbm"));
     get_graph := fun name => Ok (if bool_decide (name = "bsbm") then Some bsbm else None);
     load := fun saved => Ok saved;
     parse_query := fun query graph_name url =>
       match query with
       | Some text => Ok (text, {[ "?s ?p ?o" := 1200 ]})
       | None => Raise (UnsupportedSPARQL "empty query")
       end;
     build_query_plan := fun query graph_name next_link =>
       match query with
       | Some text => Ok (text, {[ "?s ?p ?o" := 1200 ]})
       | None => Raise (UnsupportedSPARQL "empty query")
       end;
     engine_execute := engine;
     commit_fault := fun _ => None;
     abort_fault := fun _ => None;
     graph_describe := fun g url => Ok {[ "@type" := "sage:Graph" ]};
     graph_config := fun g => Ok {[ "publish" := true ]};
     void_describe := fun url g format => Ok format;
     SageSparqlQuery_load := fun payload => Ok (payload, None);
     QueryRequest_load := fun payload => Ok (payload, None);
     dumps := fun _ => Ok "{}";
     uuids := fun n => "uuid-" +:+ pretty n;
     clock := fun n => inject_Z (Z.of_nat n) |}.

Definition stateless (engine : Engine) := world true engine encode_ok.

Definition stateful (engine : Engine) := world false engine encode_ok.

Definition start : ServerState :=
  {| plans := ∅; uuids_drawn := 0; clock_reads := 0 |}.

(** A store that already holds the continuation ["uuid-7"]. *)
Definition resumed : ServerState :=
  {| plans := {[ "uuid-7" := "rest of q" ]}; uuids_drawn := 8; clock_reads := 0 |}.

Definition select_all : option string := Some "SELECT * WHERE { ?s ?p ?o }".

Definition get_request (arguments : gmap string string)
  : Request (gmap string (option string)) :=
  {| method := "GET"; args := arguments; is_json := false;
     get_json := Raise (OtherException "not a JSON request");
     base_url := "http://localhost/sparql"; req_url := "http://localhost/sparql";
     best_match := fun _ => Some "application/json" |}.

Definition post_request (payload : gmap string (option string))
  : Request (gmap string (option string)) :=
  {| method := "POST"; args := ∅; is_json := true;
     get_json := Ok payload;
     base_url := "http://localhost/sparql"; req_url := "http://localhost/sparql/bsbm";
     best_match := fun _ => Some "application/json" |}.

Definition url : string := "http://localhost/sparql".

Definition json : option string := Some "application/json".

(** A GET request whose continuation does not decode, and one whose
    continuation is an id the store does not hold. *)
Definition tampered : Request (gmap string (option string)) :=
  get_request {[ "default-graph-uri" := "bsbm"; "next" := "corrupt" ]}.

Definition dangling : Request (gmap string (option string)) :=
  get_request {[ "default-graph-uri" := "bsbm"; "next" := "uuid-404" ]}.

(** A POST request to the deprecated route that carries a continuation. *)
Definition old_resume : Request (gmap string (option string)) :=
  post_request {[ "query" := select_all; "next" := Some "uuid-7" ]}.


(** A servicer whose class overrides [Query]: it hands the query of the
    request to the engine and answers with the solutions. *)
Definition executing_servicer (engine : Engine) : Servicer string string (list string) :=
  {| servicer_Query := fun request =>
       bind (emit (EngineExecute request (inject_Z (quota bsbm) / 1000)%Q (max_results bsbm)))
         (fun _ =>
            bind (call (engine request (inject_Z (quota bsbm) / 1000)%Q (max_results bsbm)))
              (fun executed => ret executed.1.1.1)) |}.

(** A gRPC server to which nothing was added yet, and the context of a call
    that no method has touched. *)
Definition new_server : GrpcServer string string (list string) :=
  {| generic_rpc_handlers := [] |}.

Definition new_context : ServicerContext :=
  {| code := None; details := None |}.

End Demo.

(** ** Vocabulary of the properties *)

(** The engine was called during the request and gave [answer]. *)
Definition engine_answered {Plan SavedPlan Bindings Json}
    (w : World Plan SavedPlan Bindings Json) (evs : list (Event Plan))
    (answer : Bindings * option SavedPlan * bool * option string) : Prop :=
  ∃ plan quota max_results,
    In (EngineExecute plan quota max_results) evs
    ∧ engine_execute w plan quota max_results = Ok answer.


(** What the server decodes for the continuation [next_link]: the token
    itself on a stateless dataset, what the store holds under it otherwise. *)
Definition presented_plan {Plan SavedPlan Bindings Json}
    (w : World Plan SavedPlan Bindings Json) (st : ServerState) (next_link : string)
  : option string :=
  if is_stateless w then Some next_link else plans st !! next_link.

(** The continuation [next_link] is invalid, which shows as the exception
    [err]: it references no saved plan, or what it stands for does not
    decode, or what it decodes into does not load. *)
Definition invalid_continuation {Plan SavedPlan Bindings Json}
    (w : World Plan SavedPlan Bindings Json) (st : ServerState) (next_link : string)
    (err : exn) : Prop :=
  match presented_plan w st next_link with
  | None => err = InvalidContinuation
  | Some token =>
      match decode_saved_plan w token with
      | Raise e => err = e
      | Ok decoded => load w decoded = Raise err
      end
  end.

(** The request to [/sparql] is well formed and carries the continuation
    [next_link], by GET or by POST. *)
Definition presents_continuation {Plan SavedPlan Bindings Json}
    (w : World Plan SavedPlan Bindings Json) (request : Request Json)
    (query default_graph_uri : option string) (next_link : string) : Prop :=
  (method request = "GET"
   ∧ or_None (args request !! "query") = query
   ∧ or_None (args request !! "default-graph-uri") = default_graph_uri
   ∧ default_graph_uri ≠ None
   ∧ or_None (args request !! "next") = Some next_link)
  ∨ (method request = "POST"
     ∧ is_json request = true
     ∧ ∃ payload post_query err,
         get_json request = Ok payload
         ∧ SageSparqlQuery_load w payload = Ok (post_query, err)
         ∧ has_errors err = false
         ∧ post_query !! "query" = Some query
         ∧ post_query !! "defaultGraph" = Some default_graph_uri
         ∧ post_query !! "next" = Some (Some next_link)).

(** The text of the error page for an engine abort. *)
Definition abort_text (reason : string) : string :=
  "The SPARQL query has been aborted for the following reason: '" +:+ reason +:+ "'".

(** An HTTP status of the 4xx class. *)
Definition client_error (status : Z) : Prop := 400 <= status < 500.




(** ** Vocabulary of the further properties *)

(** The calls on the saved-plan store. *)
Definition is_store_call {Plan} (ev : Event Plan) : bool :=
  match ev with
  | GetPlan _ | SavePlan _ _ | DeletePlan _ => true
  | _ => false
  end.

(** The calls that execute a query or move its transaction forward: what
    the home page of a graph has no business doing. *)
Definition is_query_call {Plan} (ev : Event Plan) : bool :=
  match ev with
  | GraphCommit _ | EngineExecute _ _ _ | DecodeSavedPlan _
  | GetPlan _ | SavePlan _ _ | DeletePlan _ => true
  | _ => false
  end.

(** The solutions a response carries. *)
Definition bindings_of {Bindings} (resp : HttpResponse Bindings) : option Bindings :=
  match resp with
  | Response (w3c_json_streaming bindings _ _ _) _ _ _ => Some bindings
  | Response (w3c_xml bindings _ _) _ _ _ => Some bindings
  | Response (raw_json_streaming bindings _ _ _) _ _ _ => Some bindings
  | render_template (sage_page _ _ bindings _ _) => Some bindings
  | _ => None
  end.

(** Every id the store holds is a UUID that the server drew earlier. *)
Definition store_keys_drawn {Plan SavedPlan Bindings Json}
    (w : World Plan SavedPlan Bindings Json) (st : ServerState) : Prop :=
  ∀ plan_id,
    is_Some (plans st !! plan_id) →
    ∃ n, (n < uuids_drawn st)%nat ∧ plan_id = uuids w n.

(** The id under which [execute_query] may save or delete a plan: the
    continuation of the request, or else the next UUID. *)
Definition continuation_id {Plan SavedPlan Bindings Json}
    (w : World Plan SavedPlan Bindings Json) (st : ServerState)
    (next_link : option string) : string :=
  match next_link with
  | Some plan_id => plan_id
  | None => uuids w (uuids_drawn st)
  end.

(** A request to [/sparql] that [sparql_index] refuses before it executes
    anything: a GET without graph, or with neither query nor continuation
    (an empty parameter counts as missing), or a request that is neither a
    GET nor a JSON POST. *)
Definition malformed_request {Json} (request : Request Json) : Prop :=
  (method request = "GET"
   ∧ (or_None (args request !! "default-graph-uri") = None
      ∨ (or_None (args request !! "query") = None
         ∧ or_None (args request !! "next") = None)))
  ∨ (method request ≠ "GET"
     ∧ (method request ≠ "POST" ∨ is_json request = false)).

(** A request to [/sparql] that [sparql_index] hands to [execute_query]
    with the arguments [query], [default_graph_uri], [next_link]. *)
Definition well_formed_request {Plan SavedPlan Bindings Json}
    (w : World Plan SavedPlan Bindings Json) (request : Request Json)
    (query default_graph_uri next_link : option string) : Prop :=
  (method request = "GET"
   ∧ or_None (args request !! "query") = query
   ∧ or_None (args request !! "default-graph-uri") = default_graph_uri
   ∧ or_None (args request !! "next") = next_link
   ∧ default_graph_uri ≠ None
   ∧ (query ≠ None ∨ next_link ≠ None))
  ∨ (method request = "POST"
     ∧ is_json request = true
     ∧ ∃ payload post_query err,
         get_json request = Ok payload
         ∧ SageSparqlQuery_load w payload = Ok (post_query, err)
         ∧ has_errors err = false
         ∧ post_query !! "query" = Some query
         ∧ post_query !! "defaultGraph" = Some default_graph_uri
         ∧ default None (post_query !! "next") = next_link).

(** ** More of the small dataset *)

Module Scenario.

(** A store that holds two continuations. *)
Definition two_plans : ServerState :=
  {| plans := {[ "uuid-3" := "rest of a"; "uuid-7" := "rest of q" ]};
     uuids_drawn := 8; clock_reads := 0 |}.

(** The stateless dataset behind a schema that requires the field
    ["query"]. *)
Definition validating (engine : Demo.Engine)
  : World string string (list string) (gmap string (option string)) :=
  {| format_graph_uri := format_graph_uri (Demo.stateless engine);
     secure_url := secure_url (Demo.stateless engine);
     encode_saved_plan := encode_saved_plan (Demo.stateless engine);
     decode_saved_plan := decode_saved_plan (Demo.stateless engine);
     page_fault := page_fault (Demo.stateless engine);
     body_fault := body_fault (Demo.stateless engine);
     is_stateless := true;
     has_graph := has_graph (Demo.stateless engine);
     get_graph := get_graph (Demo.stateless engine);
     load := load (Demo.stateless engine);
     parse_query := parse_query (Demo.stateless engine);
     build_query_plan := build_query_plan (Demo.stateless engine);
     engine_execute := engine;
     commit_fault := commit_fault (Demo.stateless engine);
     abort_fault := abort_fault (Demo.stateless engine);
     graph_describe := graph_describe (Demo.stateless engine);
     graph_config := graph_config (Demo.stateless engine);
     void_describe := void_describe (Demo.stateless engine);
     SageSparqlQuery_load := fun payload =>
       match payload !! "query" with
       | Some _ => Ok (payload, None)
       | None => Ok (payload, Some {[ "query" := "Missing data for required field." ]})
       end;
     QueryRequest_load := QueryRequest_load (Demo.stateless engine);
     dumps := dumps (Demo.stateless engine);
     uuids := uuids (Demo.stateless engine);
     clock := clock (Demo.stateless engine) |}.

(** A GET request with a query and a graph; one whose graph is the empty
    string; one for a graph the dataset does not have; one with no
    parameter at all. *)
Definition first_request : Request (gmap string (option string)) :=
  Demo.get_request
    {[ "default-graph-uri" := "bsbm"; "query" := "SELECT * WHERE { ?s ?p ?o }" ]}.

Definition empty_graph_request : Request (gmap string (option string)) :=
  Demo.get_request
    {[ "default-graph-uri" := ""; "query" := "SELECT * WHERE { ?s ?p ?o }" ]}.

Definition bare_request : Request (gmap string (option string)) :=
  Demo.get_request ∅.

(** A POST request whose payload has no query. *)
Definition no_query_request : Request (gmap string (option string)) :=
  Demo.post_request {[ "defaultGraph" := Some "bsbm" ]}.

(** A POST request to the deprecated route that asks for the W3C JSON
    format. *)
Definition w3c_json_request : Request (gmap string (option string)) :=
  {| method := "POST"; args := ∅; is_json := true;
     get_json := Ok {[ "query" := Demo.select_all ]};
     base_url := "http://localhost/sparql"; req_url := "http://localhost/sparql/bsbm";
     best_match := fun _ => Some "application/sparql-results+json" |}.

End Scenario.

(** ** Proof support *)

Create HintDb handlers.

#[global] Hint Unfold outcome final events transactions : handlers.
#[global] Hint Unfold graph_commit graph_abort getattr getitem abort time str_uuid4
  get_plan save_plan delete_plan : handlers.
#[global] Hint Unfold bind try_except call build ret raise emit get put : handlers.

(** Case analysis on the innermost call whose result the run is waiting
    for; a call whose result is known from a hypothesis is rewritten. *)
Ltac case_known t :=
  match goal with
  | H : ?x = _ |- _ => lazymatch t with context [x] => rewrite H end
  | H : ∀ x, ?f ?w x = None |- _ =>
      lazymatch t with f w ?a => rewrite (H a) end
  | H : ∀ x, returns (?f ?w x) |- _ =>
      lazymatch t with
      | f w ?a =>
          let E := fresh "E" in
          destruct t eqn:E; [ | exfalso; specialize (H a); rewrite E in H; exact H ]
      end
  end.

Ltac case_innermost t :=
  lazymatch t with
  | context [match ?x with _ => _ end] => case_innermost x
  | negb ?x => case_innermost x
  | andb ?x _ => case_innermost x
  | orb ?x _ => case_innermost x
  | bool_decide ?P =>
      first [ case_known t
            | rewrite (bool_decide_eq_true_2 P) by done
            | rewrite (bool_decide_eq_false_2 P) by done
            | destruct t eqn:? ]
  | _ => first [ is_var t; destruct t | case_known t | destruct t eqn:? ]
  end.

(** The run under analysis is the left-hand side of the first premise. *)
Ltac case_call :=
  lazymatch goal with
  | |- ?run = _ → _ =>
      lazymatch run with
      | context [match ?x with _ => _ end] => case_innermost x
      end
  end.

Ltac run_handler :=
  autounfold with handlers; cbn;
  repeat (case_call; cbn; try (intros _; exfalso; congruence)).

(** Run a handler symbolically: one goal for each way through it. *)
Ltac run_of handler :=
  let H := fresh "Hrun" in
  destruct handler as [[?out ?st'] ?evs] eqn:H; revert H.

Ltac run_sparql_index :=
  match goal with
  | |- context [sparql_index ?w ?request ?st] =>
      run_of (sparql_index w request st);
      unfold sparql_index, sparql_index_body,
        execute_query, execute_query_body, execute_query_except;
      run_handler; intros [= <- <- <-]
  end.

Ltac run_sparql_query :=
  match goal with
  | |- context [sparql_query ?w ?request ?name ?st] =>
      run_of (sparql_query w request name st);
      unfold sparql_query, sparql_query_body;
      run_handler; intros [= <- <- <-]
  end.

Ltac run_execute_query :=
  match goal with
  | |- context [execute_query ?w ?q ?dg ?nl ?mt ?url ?st] =>
      run_of (execute_query w q dg nl mt url st);
      unfold execute_query, execute_query_body, execute_query_except;
      run_handler; intros [= <- <- <-]
  end.

(** Membership of a call among the calls of a finished run. *)
Ltac split_events :=
  repeat match goal with
  | H : In _ (_ :: _) |- _ => destruct H as [H | H]
  | H : In _ [] |- _ => destruct H
  | H : @eq (Event _) _ _ |- _ =>
      first [ discriminate H | injection H; clear H; intros; subst ]
  | H : _ ∨ _ |- _ => destruct H
  | H : False |- _ => destruct H
  end; subst.

Ltac in_events := cbn; repeat first [ left; reflexivity | right ].

(** Two results of the same engine call are the same result. *)
Ltac same_answer :=
  match goal with
  | H : engine_execute ?w ?p ?q ?m = _, H' : engine_execute ?w ?p ?q ?m = _ |- _ =>
      rewrite H in H'; simplify_eq
  end.

(** [sparql_index] run with [execute_query] left as one call. *)
Ltac run_sparql_index_only :=
  match goal with
  | |- context [sparql_index ?w ?request ?st] =>
      run_of (sparql_index w request st);
      unfold sparql_index, sparql_index_body;
      run_handler; intros [= <- <- <-]
  end.

(** How the ids that the store holds move with the store. *)
Ltac keys_drawn :=
  repeat match goal with
  | H : is_Some (<[_ := _]> _ !! _) |- _ =>
      rewrite lookup_insert in H; case_decide; subst
  | H : is_Some (delete _ _ !! _) |- _ =>
      rewrite lookup_delete in H; case_decide; subst
  | H : is_Some None |- _ => destruct H; discriminate
  | _ : ?m !! ?k = Some _, Hinv : ∀ k', is_Some (?m !! k') → _ |- ∃ n, _ ∧ ?k = _ =>
      let n := fresh "n" in
      destruct (Hinv k ltac:(eauto)) as (n & ? & ?); exists n; split; [ lia | done ]
  | Hk : is_Some (?m !! ?k), Hinv : ∀ k', is_Some (?m !! k') → _ |- ∃ n, _ ∧ ?k = _ =>
      let n := fresh "n" in
      destruct (Hinv k Hk) as (n & ? & ?); exists n; split; [ lia | done ]
  | |- ∃ n, (n < S ?d)%nat ∧ ?f ?w ?d = ?f ?w n => exists d; split; [ lia | reflexivity ]
  end.

(** ** Properties of the handlers *)

Section Properties.

Context {Plan SavedPlan Bindings Json : Type}.
Context (w : World Plan SavedPlan Bindings Json).

(** The text of the abort page contains the reason. *)
Lemma abort_text_contains reason :
  ∃ before after, abort_text reason = before +:+ reason +:+ after.
Proof. eexists _, _. reflexivity. Qed.

(** When [execute_query] calls the engine, the graph was resolved and the
    call carries its quota divided by 1000 and its [max_results]. *)
Lemma engine_call_inv query dg nl mt url st plan q m :
  In (EngineExecute plan q m) (events (execute_query w query dg nl mt url st)) →
  ∃ name g,
    format_graph_uri w dg url = Ok name
    ∧ has_graph w name = Ok true
    ∧ get_graph w name = Ok (Some g)
    ∧ q = (inject_Z (quota g) / 1000)%Q
    ∧ m = max_results g.
Proof.
  run_execute_query; cbn; intros HIn; split_events.
  all: eauto 10.
Qed.

(** Resuming, on a stateful dataset, from an id the store does not hold. *)
Lemma resume_missing_plan query dg id mt url st name g :
  is_stateless w = false →
  format_graph_uri w dg url = Ok name →
  has_graph w name = Ok true →
  get_graph w name = Ok (Some g) →
  abort_fault w g = None →
  plans st !! id = None →
  outcome (execute_query w query dg (Some id) mt url st) = Raise InvalidContinuation.
Proof.
  intros Hmode Hname Hknown Hgraph Habort Hmiss.
  run_execute_query. reflexivity.
Qed.


(** C2 (amended).  Whenever [execute_query] invokes the engine, it invokes
    it as [execute(plan, quota, max_results)] where [quota] is the
    configured quota of the resolved graph divided by 1000 (milliseconds
    turned into seconds) and [max_results] is the graph's [max_results],
    unchanged. *)
Theorem engine_receives_quota_in_seconds query dg nl mt url st plan q m :
  In (EngineExecute plan q m) (events (execute_query w query dg nl mt url st)) →
  ∃ name g,
    format_graph_uri w dg url = Ok name
    ∧ get_graph w name = Ok (Some g)
    ∧ q = (inject_Z (quota g) / 1000)%Q
    ∧ m = max_results g.
Proof.
  intros HIn.
  destruct (engine_call_inv _ _ _ _ _ _ _ _ _ HIn) as (name & g & ? & ? & ? & ? & ?).
  eauto 10.
Qed.



(** C4 (amended).  For every request to [/sparql] on a registered graph that
    presents a continuation token which cannot be decoded or loaded, or
    which references a missing saved plan: [execute_query] calls
    [graph.abort()] once and never [commit], leaves the saved-plan store
    as it was and raises the error again; [sparql_index] then ends the
    request with [abort(500)], or, if the error is an [UnsupportedSPARQL],
    with the page [sage_http_error(str(err))]. *)
Theorem invalid_continuation_aborts request query dg next_link url name g err st :
  presents_continuation w request query dg next_link →
  secure_url w (base_url request) = Ok url →
  format_graph_uri w dg url = Ok name →
  has_graph w name = Ok true →
  get_graph w name = Ok (Some g) →
  invalid_continuation w st next_link err →
  abort_fault w g = None →
  let run := sparql_index w request st in
  transactions (events run) = [GraphAbort g]
  ∧ plans (final run) = plans st
  ∧ match err with
    | UnsupportedSPARQL msg =>
        page_fault w (sage_http_error msg) = None →
        outcome run = Ok (sage_http_error msg)
    | _ => outcome run = Raise (HTTPException 500)
    end.
Proof.
  intros Hreq Hurl Hname Hknown Hgraph Hinvalid Habort run; subst run.
  unfold invalid_continuation, presented_plan in Hinvalid.
  destruct (is_stateless w) eqn:Hmode;
    [ | destruct (plans st !! next_link) as [token|] eqn:Hstored ];
    try (destruct (decode_saved_plan w _) as [decoded|] eqn:Hdecode);
    subst.
  all: destruct Hreq as
      [ (Hmethod & Hquery & Hdg & Hsome & Hnext)
      | (Hmethod & Hjson & payload & post_query & errs & Hpayload & Hload & Herrs
         & Hq & Hd & Hn) ].
  all: try (destruct dg as [uri|]; [ clear Hsome | done ]).
  all: run_sparql_index.
  all: cbn; repeat split; try done; try congruence.
Qed.

(** C5.  On a stateful dataset, whenever an execution resumed from a
    continuation id finishes ([is_done] true, no abort reason), the saved
    plan stored under that id is deleted: the store no longer holds the
    id, and a further request that presents it raises
    [InvalidContinuation]. *)
Theorem finished_resumption_deletes_saved_plan query dg id mt url st bindings saved_plan :
  is_stateless w = false →
  (∀ g, commit_fault w g = None) →
  (∀ g, abort_fault w g = None) →
  let run := execute_query w query dg (Some id) mt url st in
  engine_answered w (events run) (bindings, saved_plan, true, None) →
  In (DeletePlan id) (events run)
  ∧ plans (final run) = delete id (plans st)
  ∧ plans (final run) !! id = None
  ∧ ∀ query' mt' st',
      plans st' = plans (final run) →
      outcome (execute_query w query' dg (Some id) mt' url st') = Raise InvalidContinuation.
Proof.
  intros Hmode Hcommit Habort run (plan & q & m & HIn & Hanswer).
  destruct (engine_call_inv _ _ _ _ _ _ _ _ _ HIn) as (name & g & Hname & Hknown & Hgraph & _).
  assert (In (DeletePlan id) (events run) ∧ plans (final run) = delete id (plans st))
    as [Hdeleted Hfinal].
  { revert HIn. subst run. run_execute_query; cbn; intros HIn; split_events.
    all: try same_answer.
    all: split; [ in_events | reflexivity ]. }
  split; [ exact Hdeleted | ]. split; [ exact Hfinal | ].
  split; [ rewrite Hfinal; apply lookup_delete_eq | ].
  intros query' mt' st' Hst'.
  apply resume_missing_plan with (name := name) (g := g); auto.
  rewrite Hst', Hfinal. apply lookup_delete_eq.
Qed.

(** C6.  On a stateful dataset, when an execution is suspended: without
    [next_link] in the request the continuation id is a UUID newly drawn
    from [uuid4]; with [next_link] the id is [next_link] itself and no UUID
    is drawn.  In both cases the newly encoded plan is saved under the id,
    replacing whatever the store held there, and the id is the [next] of
    the response. *)
Theorem continuation_id_fresh_then_reused query dg nl mt url st bindings saved_plan token :
  is_stateless w = false →
  (∀ g, commit_fault w g = None) →
  encode_saved_plan w saved_plan = Ok token →
  let run := execute_query w query dg nl mt url st in
  let plan_id := match nl with
                 | Some id => id
                 | None => uuids w (uuids_drawn st)
                 end in
  engine_answered w (events run) (bindings, saved_plan, false, None) →
  In (SavePlan plan_id token) (events run)
  ∧ plans (final run) = <[plan_id := token]> (plans st)
  ∧ plans (final run) !! plan_id = Some token
  ∧ uuids_drawn (final run)
    = match nl with
      | Some _ => uuids_drawn st
      | None => S (uuids_drawn st)
      end
  ∧ (∀ resp, outcome run = Ok resp → next_of resp = Some plan_id).
Proof.
  intros Hmode Hcommit Hencode run plan_id.
  subst run plan_id.
  run_execute_query; cbn; intros (plan & q & m & HIn & Hanswer); split_events.
  all: try same_answer.
  all: try congruence.
  all: try match goal with
       | H : encode_saved_plan w ?s = _, H' : encode_saved_plan w ?s = _ |- _ =>
           rewrite H in H'; simplify_eq
       end.
  all: split; [ in_events | ].
  all: split; [ reflexivity | ].
  all: split; [ apply lookup_insert_eq | ].
  all: split; [ reflexivity | ].
  all: intros resp [= <-]; reflexivity.
Qed.

(** C7.  On a stateless dataset the continuation token is the encoded plan
    itself: the token presented is what is decoded, with no lookup in the
    store, and on suspension the [next] of the response is the encoded
    saved plan, with nothing saved.  On a stateful dataset the token is an
    id: what is decoded is what the store holds under the presented id,
    and on suspension the [next] of the response is an id under which the
    encoded saved plan has been saved. *)
Theorem continuation_token_by_mode query dg nl mt url st :
  let run := execute_query w query dg nl mt url st in
  (∀ presented token,
      nl = Some presented →
      In (DecodeSavedPlan token) (events run) →
      if is_stateless w
      then token = presented ∧ ∀ plan_id, ¬ In (GetPlan plan_id) (events run)
      else plans st !! presented = Some token ∧ In (GetPlan presented) (events run))
  ∧ (∀ bindings saved_plan token resp,
      engine_answered w (events run) (bindings, saved_plan, false, None) →
      encode_saved_plan w saved_plan = Ok token →
      outcome run = Ok resp →
      if is_stateless w
      then next_of resp = Some token
           ∧ plans (final run) = plans st
           ∧ ∀ plan_id stored, ¬ In (SavePlan plan_id stored) (events run)
      else ∃ plan_id,
             next_of resp = Some plan_id
             ∧ In (SavePlan plan_id token) (events run)
             ∧ plans (final run) !! plan_id = Some token).
Proof.
  intros run; subst run.
  destruct (is_stateless w) eqn:Hmode.
  - run_execute_query; cbn.
    all: split;
      [ intros presented token Hnl HIn; simplify_eq; split_events;
        (split; [ reflexivity | intros plan_id HIn'; split_events ])
      | intros bindings saved_plan token resp (plan & q & m & HIn & Hanswer) Hencode Hresp;
        simplify_eq;
        split_events; try same_answer; try congruence ].
    all: try discriminate.
    all: cbn; split; [ congruence | ].
    all: split; [ reflexivity | intros plan_id stored HIn'; split_events ].
  - run_execute_query; cbn.
    all: split;
      [ intros presented token Hnl HIn; simplify_eq; split_events;
        (split; [ assumption | in_events ])
      | intros bindings saved_plan token resp (plan & q & m & HIn & Hanswer) Hencode Hresp;
        simplify_eq;
        split_events; try same_answer; try congruence ].
    all: try discriminate.
    all: cbn; eexists; split; [ reflexivity | ].
    all: match goal with
         | H : encode_saved_plan w ?s = _, H' : encode_saved_plan w ?s = _ |- _ =>
             rewrite H in H'; simplify_eq
         end.
    all: split; [ in_events | apply lookup_insert_eq ].
Qed.

(** C9 (amended).  For every request, the method [SageSPARQLServicer.Query]
    sets the status code [UNIMPLEMENTED] (and the details) on the context
    and raises [NotImplementedError]; it calls nothing else, the engine
    least of all.  [add_SageSPARQLServicer_to_server] adds one handler to
    the server, for the service ['sage.SageSPARQL'], with the one method
    ['Query'], answered by the [Query] of the servicer it is given.  When
    that servicer is an instance of [SageSPARQLServicer] itself, every
    method it adds raises [NotImplementedError] and calls nothing. *)
Theorem grpc_query_is_unimplemented {SageQuery SageResponse : Type}
    (server : GrpcServer Plan SageQuery SageResponse)
    (request : SageQuery) (context : ServicerContext) :
  let run := Query (Plan := Plan) (SageResponse := SageResponse) request context in
  (outcome run = Raise (NotImplementedError "Method not implemented!")
   ∧ code (final run) = Some UNIMPLEMENTED
   ∧ details (final run) = Some "Method not implemented!"
   ∧ events run = [])
  ∧ (∀ servicer : Servicer Plan SageQuery SageResponse,
       ∃ generic_handler,
         outcome (add_SageSPARQLServicer_to_server servicer server) = Ok tt
         ∧ generic_rpc_handlers (final (add_SageSPARQLServicer_to_server servicer server))
           = generic_rpc_handlers server ++ [generic_handler]
         ∧ service generic_handler = "sage.SageSPARQL"
         ∧ (∃ handler, method_handlers generic_handler !! "Query" = Some handler)
         ∧ ∀ name handler,
             method_handlers generic_handler !! name = Some handler →
             name = "Query"
             ∧ unary_unary handler = servicer_Query servicer
             ∧ request_deserializer handler = SageQuery_FromString
             ∧ response_serializer handler = SageResponse_SerializeToString)
  ∧ (∀ generic_handler name handler,
       In generic_handler
          (generic_rpc_handlers
             (final (add_SageSPARQLServicer_to_server SageSPARQLServicer server))) →
       method_handlers generic_handler !! name = Some handler →
       In generic_handler (generic_rpc_handlers server)
       ∨ (outcome (unary_unary handler request context)
          = Raise (NotImplementedError "Method not implemented!")
          ∧ code (final (unary_unary handler request context)) = Some UNIMPLEMENTED
          ∧ details (final (unary_unary handler request context))
            = Some "Method not implemented!"
          ∧ events (unary_unary handler request context) = [])).
Proof.
  cbn. split; [ repeat split | ]. split.
  - intros servicer. eexists. split; [ reflexivity | ]. split; [ reflexivity | ].
    split; [ reflexivity | ]. cbn. split.
    + eexists. apply lookup_singleton_eq.
    + intros name handler Hregistered. unfold rpc_method_handlers in Hregistered.
      apply lookup_singleton_Some in Hregistered as [<- <-]. repeat split.
  - intros generic_handler name handler Hadded Hregistered.
    apply in_app_or in Hadded as [Hbefore | [<- | []]]; [ left; exact Hbefore | right ].
    cbn in Hregistered. unfold rpc_method_handlers in Hregistered.
    apply lookup_singleton_Some in Hregistered as [<- <-]. repeat split.
Qed.
(** C10.  In [execute_query], whenever the request carries a continuation
    ([next_link] is not [None]), the [cardinalities] of the [stats] of the
    response is the empty map. *)
Theorem resumed_page_has_no_cardinalities query dg next_link mt url st resp stats :
  outcome (execute_query w query dg (Some next_link) mt url st) = Ok resp →
  stats_of resp = Some stats →
  cardinalities stats = ∅.
Proof.
  run_execute_query; cbn; intros [= <-]; cbn; intros [= <-]; reflexivity.
Qed.

End Properties.

(** ** The properties at work on the small dataset *)



(** C2, as stated, fails: the graph is configured with 75000 ms and the
    engine receives 75000/1000. *)
Lemma engine_quota_counterexample :
  events (execute_query (Demo.stateless Demo.finishing)
            Demo.select_all (Some "bsbm") None Demo.json Demo.url Demo.start)
  = [EngineExecute "SELECT * WHERE { ?s ?p ?o }" (75000 # 1000) 2000;
     GraphCommit Demo.bsbm]
  ∧ quota Demo.bsbm = 75000
  ∧ ¬ (75000 # 1000 == inject_Z (quota Demo.bsbm))%Q.
Proof.
  split; [ vm_compute; reflexivity | ]. split; [ reflexivity | ].
  intros H. vm_compute in H. discriminate H.
Qed.

Lemma engine_receives_quota_in_seconds_witness :
  In (EngineExecute "SELECT * WHERE { ?s ?p ?o }" (inject_Z 75000 / 1000)%Q 2000)
     (events (execute_query (Demo.stateless Demo.finishing)
                Demo.select_all (Some "bsbm") None Demo.json Demo.url Demo.start))
  ∧ ∃ name g,
      format_graph_uri (Demo.stateless Demo.finishing) (Some "bsbm") Demo.url = Ok name
      ∧ get_graph (Demo.stateless Demo.finishing) name = Ok (Some g)
      ∧ (inject_Z 75000 / 1000)%Q = (inject_Z (quota g) / 1000)%Q
      ∧ 2000 = max_results g.
Proof.
  assert (In (EngineExecute "SELECT * WHERE { ?s ?p ?o }" (inject_Z 75000 / 1000)%Q 2000)
            (events (execute_query (Demo.stateless Demo.finishing)
                       Demo.select_all (Some "bsbm") None Demo.json Demo.url Demo.start)))
    as HIn by (vm_compute; auto).
  split; [ exact HIn | ].
  exact (engine_receives_quota_in_seconds _ _ _ _ _ _ _ _ _ _ HIn).
Defined.



(** C4, as stated, fails: a token that does not decode, or an id that the
    store does not hold, ends in [abort(500)], which is not a client error,
    after a [graph.abort()]. *)
Lemma invalid_continuation_counterexample :
  outcome (sparql_index (Demo.stateless Demo.finishing) Demo.tampered Demo.start)
  = Raise (HTTPException 500)
  ∧ transactions
      (events (sparql_index (Demo.stateless Demo.finishing) Demo.tampered Demo.start))
    = [GraphAbort Demo.bsbm]
  ∧ outcome (sparql_index (Demo.stateful Demo.finishing) Demo.dangling Demo.resumed)
    = Raise (HTTPException 500)
  ∧ transactions
      (events (sparql_index (Demo.stateful Demo.finishing) Demo.dangling Demo.resumed))
    = [GraphAbort Demo.bsbm]
  ∧ ¬ client_error 500.
Proof.
  repeat split; try (vm_compute; reflexivity).
  unfold client_error. lia.
Qed.

Lemma invalid_continuation_aborts_witness :
  presents_continuation (Demo.stateless Demo.finishing) Demo.tampered
    None (Some "bsbm") "corrupt"
  ∧ invalid_continuation (Demo.stateless Demo.finishing) Demo.start "corrupt"
      (OtherException "cannot decode the saved plan")
  ∧ transactions
      (events (sparql_index (Demo.stateless Demo.finishing) Demo.tampered Demo.start))
    = [GraphAbort Demo.bsbm]
  ∧ outcome (sparql_index (Demo.stateless Demo.finishing) Demo.tampered Demo.start)
    = Raise (HTTPException 500).
Proof.
  assert (presents_continuation (Demo.stateless Demo.finishing) Demo.tampered
            None (Some "bsbm") "corrupt") as Hpresent.
  { left. repeat split; try (vm_compute; reflexivity). discriminate. }
  assert (invalid_continuation (Demo.stateless Demo.finishing) Demo.start "corrupt"
            (OtherException "cannot decode the saved plan")) as Hinvalid
    by (vm_compute; reflexivity).
  split; [ exact Hpresent | ]. split; [ exact Hinvalid | ].
  destruct (invalid_continuation_aborts (Demo.stateless Demo.finishing) Demo.tampered
              None (Some "bsbm") "corrupt" "http://localhost/sparql" "bsbm" Demo.bsbm
              (OtherException "cannot decode the saved plan") Demo.start
              Hpresent eq_refl eq_refl eq_refl eq_refl Hinvalid eq_refl)
    as (Htransactions & _ & Houtcome).
  split; [ exact Htransactions | exact Houtcome ].
Defined.

Lemma finished_resumption_deletes_saved_plan_witness :
  engine_answered (Demo.stateful Demo.finishing)
    (events (execute_query (Demo.stateful Demo.finishing)
               None (Some "bsbm") (Some "uuid-7") Demo.json Demo.url Demo.resumed))
    (["s1"; "s2"], None, true, None)
  ∧ plans Demo.resumed !! "uuid-7" = Some "rest of q"
  ∧ plans (final (execute_query (Demo.stateful Demo.finishing)
                    None (Some "bsbm") (Some "uuid-7") Demo.json Demo.url Demo.resumed))
    !! "uuid-7" = None
  ∧ outcome (execute_query (Demo.stateful Demo.finishing)
               None (Some "bsbm") (Some "uuid-7") Demo.json Demo.url
               (final (execute_query (Demo.stateful Demo.finishing)
                         None (Some "bsbm") (Some "uuid-7") Demo.json Demo.url
                         Demo.resumed)))
    = Raise InvalidContinuation.
Proof.
  assert (engine_answered (Demo.stateful Demo.finishing)
            (events (execute_query (Demo.stateful Demo.finishing)
                       None (Some "bsbm") (Some "uuid-7") Demo.json Demo.url Demo.resumed))
            (["s1"; "s2"], None, true, None)) as Hanswer.
  { exists "rest of q", (inject_Z 75000 / 1000)%Q, 2000.
    split; [ vm_compute; auto | reflexivity ]. }
  split; [ exact Hanswer | ]. split; [ vm_compute; reflexivity | ].
  destruct (finished_resumption_deletes_saved_plan (Demo.stateful Demo.finishing)
              None (Some "bsbm") "uuid-7" Demo.json Demo.url Demo.resumed
              ["s1"; "s2"] None eq_refl (fun _ => eq_refl) (fun _ => eq_refl) Hanswer)
    as (_ & _ & Hgone & Hagain).
  split; [ exact Hgone | ].
  apply Hagain. reflexivity.
Defined.

Lemma continuation_id_fresh_then_reused_witness :
  plans (final (execute_query (Demo.stateful Demo.suspending)
                  Demo.select_all (Some "bsbm") None Demo.json Demo.url Demo.start))
  !! "uuid-0" = Some "rest of SELECT * WHERE { ?s ?p ?o }"
  ∧ plans Demo.resumed !! "uuid-7" = Some "rest of q"
  ∧ plans (final (execute_query (Demo.stateful Demo.suspending)
                    None (Some "bsbm") (Some "uuid-7") Demo.json Demo.url Demo.resumed))
    !! "uuid-7" = Some "rest of rest of q".
Proof.
  split; [ | split; [ vm_compute; reflexivity | ] ].
  - assert (engine_answered (Demo.stateful Demo.suspending)
              (events (execute_query (Demo.stateful Demo.suspending)
                         Demo.select_all (Some "bsbm") None Demo.json Demo.url Demo.start))
              (["s1"], Some "rest of SELECT * WHERE { ?s ?p ?o }", false, None))
      as Hanswer.
    { exists "SELECT * WHERE { ?s ?p ?o }", (inject_Z 75000 / 1000)%Q, 2000.
      split; [ vm_compute; auto | reflexivity ]. }
    destruct (continuation_id_fresh_then_reused (Demo.stateful Demo.suspending)
                Demo.select_all (Some "bsbm") None Demo.json Demo.url Demo.start
                ["s1"] (Some "rest of SELECT * WHERE { ?s ?p ?o }")
                "rest of SELECT * WHERE { ?s ?p ?o }"
                eq_refl (fun _ => eq_refl) eq_refl Hanswer)
      as (_ & _ & Hstored & _).
    exact Hstored.
  - assert (engine_answered (Demo.stateful Demo.suspending)
              (events (execute_query (Demo.stateful Demo.suspending)
                         None (Some "bsbm") (Some "uuid-7") Demo.json Demo.url Demo.resumed))
              (["s1"], Some "rest of rest of q", false, None))
      as Hanswer.
    { exists "rest of q", (inject_Z 75000 / 1000)%Q, 2000.
      split; [ vm_compute; auto | reflexivity ]. }
    destruct (continuation_id_fresh_then_reused (Demo.stateful Demo.suspending)
                None (Some "bsbm") (Some "uuid-7") Demo.json Demo.url Demo.resumed
                ["s1"] (Some "rest of rest of q") "rest of rest of q"
                eq_refl (fun _ => eq_refl) eq_refl Hanswer)
      as (_ & _ & Hstored & _).
    exact Hstored.
Defined.

Lemma continuation_token_by_mode_witness :
  (∀ plan_id,
     ¬ In (GetPlan plan_id)
         (events (execute_query (Demo.stateless Demo.suspending)
                    None (Some "bsbm") (Some "rest of q") Demo.json Demo.url Demo.start)))
  ∧ plans Demo.resumed !! "uuid-7" = Some "rest of q"
  ∧ In (GetPlan "uuid-7")
       (events (execute_query (Demo.stateful Demo.suspending)
                  None (Some "bsbm") (Some "uuid-7") Demo.json Demo.url Demo.resumed))
  ∧ ∃ resp,
      outcome (execute_query (Demo.stateless Demo.suspending)
                 None (Some "bsbm") (Some "rest of q") Demo.json Demo.url Demo.start)
      = Ok resp
      ∧ next_of resp = Some "rest of rest of q".
Proof.
  split; [ | split; [ | split ] ]; cycle 3.
  - eexists. split; [ vm_compute; reflexivity | ].
    destruct (continuation_token_by_mode (Demo.stateless Demo.suspending)
                None (Some "bsbm") (Some "rest of q") Demo.json Demo.url Demo.start)
      as [_ Hreturned].
    refine (proj1 (Hreturned ["s1"] (Some "rest of rest of q") "rest of rest of q" _ _
                     eq_refl _)).
    + exists "rest of q", (inject_Z 75000 / 1000)%Q, 2000.
      split; [ vm_compute; auto | reflexivity ].
    + vm_compute; reflexivity.
  - destruct (continuation_token_by_mode (Demo.stateless Demo.suspending)
                None (Some "bsbm") (Some "rest of q") Demo.json Demo.url Demo.start)
      as [Haccepted _].
    apply (Haccepted "rest of q" "rest of q" eq_refl).
    vm_compute; auto.
  - destruct (continuation_token_by_mode (Demo.stateful Demo.suspending)
                None (Some "bsbm") (Some "uuid-7") Demo.json Demo.url Demo.resumed)
      as [Haccepted _].
    apply (Haccepted "uuid-7" "rest of q" eq_refl).
    vm_compute; auto.
  - destruct (continuation_token_by_mode (Demo.stateful Demo.suspending)
                None (Some "bsbm") (Some "uuid-7") Demo.json Demo.url Demo.resumed)
      as [Haccepted _].
    apply (Haccepted "uuid-7" "rest of q" eq_refl).
    vm_compute; auto.
Defined.



(** C9, as stated, fails: the transport runs the [Query] of the servicer
    that was registered, and a servicer that overrides [Query] has its
    query executed. *)
Lemma grpc_transport_counterexample :
  ∃ generic_handler handler,
    generic_rpc_handlers
      (final (add_SageSPARQLServicer_to_server (Demo.executing_servicer Demo.finishing)
                Demo.new_server))
    = [generic_handler]
    ∧ service generic_handler = "sage.SageSPARQL"
    ∧ method_handlers generic_handler !! "Query" = Some handler
    ∧ outcome (unary_unary handler "SELECT * WHERE { ?s ?p ?o }" Demo.new_context)
      = Ok ["s1"; "s2"]
    ∧ events (unary_unary handler "SELECT * WHERE { ?s ?p ?o }" Demo.new_context)
      = [EngineExecute "SELECT * WHERE { ?s ?p ?o }" (75000 # 1000) 2000]
    ∧ code (final (unary_unary handler "SELECT * WHERE { ?s ?p ?o }" Demo.new_context))
      = None.
Proof.
  eexists _, _. split; [ reflexivity | ]. split; [ reflexivity | ].
  split; [ apply lookup_singleton_eq | ].
  repeat split; vm_compute; reflexivity.
Qed.

Lemma grpc_query_is_unimplemented_witness :
  ∃ generic_handler handler,
    generic_rpc_handlers
      (final (add_SageSPARQLServicer_to_server
                (SageSPARQLServicer (Plan := string) (SageQuery := string)
                   (SageResponse := list string))
                Demo.new_server))
    = [generic_handler]
    ∧ method_handlers generic_handler !! "Query" = Some handler
    ∧ outcome (unary_unary handler "SELECT * WHERE { ?s ?p ?o }" Demo.new_context)
      = Raise (NotImplementedError "Method not implemented!")
    ∧ events (unary_unary handler "SELECT * WHERE { ?s ?p ?o }" Demo.new_context) = [].
Proof.
  eexists _, _. split; [ reflexivity | ].
  assert (Hregistered :
    method_handlers
      {| service := "sage.SageSPARQL";
         method_handlers :=
           rpc_method_handlers
             (SageSPARQLServicer (Plan := string) (SageQuery := string)
                (SageResponse := list string)) |}
    !! "Query"
    = Some {| unary_unary := Query; request_deserializer := SageQuery_FromString;
              response_serializer := SageResponse_SerializeToString |})
    by apply lookup_singleton_eq.
  split; [ exact Hregistered | ].
  destruct (grpc_query_is_unimplemented (Plan := string) Demo.new_server
              "SELECT * WHERE { ?s ?p ?o }" Demo.new_context)
    as (_ & _ & Hbase).
  destruct (Hbase _ "Query" _ (or_introl eq_refl) Hregistered)
    as [[] | (Hraises & _ & _ & Hquiet)].
  split; [ exact Hraises | exact Hquiet ].
Defined.

Lemma resumed_page_has_no_cardinalities_witness :
  ∃ resp stats,
    outcome (execute_query (Demo.stateless Demo.suspending)
               None (Some "bsbm") (Some "rest of q") Demo.json Demo.url Demo.start)
    = Ok resp
    ∧ stats_of resp = Some stats
    ∧ cardinalities stats = ∅.
Proof.
  eexists _, _.
  split; [ vm_compute; reflexivity | ].
  split; [ reflexivity | ].
  eapply (resumed_page_has_no_cardinalities (Demo.stateless Demo.suspending)
            None (Some "bsbm") "rest of q" Demo.json Demo.url Demo.start).
  - vm_compute; reflexivity.
  - reflexivity.
Defined.

(** ** Further properties of the handlers *)

Section Further.

Context {Plan SavedPlan Bindings Json : Type}.
Context (w : World Plan SavedPlan Bindings Json).

(** X1.  Whatever happens, [execute_query] performs no transaction call, or
    only calls on the resolved graph, in one of five shapes: a commit or an
    abort when it returns; an abort, a commit followed by an abort, or two
    aborts when it raises.  It never commits twice and never commits after
    an abort. *)
Theorem execute_query_transaction_shapes query dg nl mt url st :
  let run := execute_query w query dg nl mt url st in
  transactions (events run) = []
  ∨ ∃ name g,
      format_graph_uri w dg url = Ok name
      ∧ get_graph w name = Ok (Some g)
      ∧ match outcome run with
        | Ok _ =>
            transactions (events run) = [GraphCommit g]
            ∨ transactions (events run) = [GraphAbort g]
        | Raise _ =>
            transactions (events run) = [GraphAbort g]
            ∨ transactions (events run) = [GraphCommit g; GraphAbort g]
            ∨ transactions (events run) = [GraphAbort g; GraphAbort g]
        end.
Proof.
  intros run; subst run.
  run_execute_query; cbn.
  all: first
    [ left; reflexivity
    | right; eexists _, _; split; [ reflexivity | ]; split; [ eassumption | ];
      first [ left; reflexivity | right; left; reflexivity | right; right; reflexivity
            | right; reflexivity ] ].
Qed.

(** X3.  On a stateless dataset [execute_query] never calls the saved-plan
    store and draws no UUID: the store is left as it was. *)
Theorem stateless_query_leaves_store_alone query dg nl mt url st :
  is_stateless w = true →
  let run := execute_query w query dg nl mt url st in
  plans (final run) = plans st
  ∧ uuids_drawn (final run) = uuids_drawn st
  ∧ ∀ ev, In ev (events run) → is_store_call ev = false.
Proof.
  intros Hmode run; subst run.
  run_execute_query; cbn.
  all: split; [ reflexivity | ]; split; [ reflexivity | ].
  all: intros ev HIn; split_events; reflexivity.
Qed.

(** X4.  [execute_query] saves and deletes under one id only, the
    continuation of the request or else the UUID it draws; every other
    entry of the store is left as it was. *)
Theorem only_the_continuation_entry_changes query dg nl mt url st :
  let run := execute_query w query dg nl mt url st in
  (∀ plan_id token,
      In (SavePlan plan_id token) (events run) → plan_id = continuation_id w st nl)
  ∧ (∀ plan_id,
      In (DeletePlan plan_id) (events run) → plan_id = continuation_id w st nl)
  ∧ (∀ plan_id,
      plan_id ≠ continuation_id w st nl →
      plans (final run) !! plan_id = plans st !! plan_id).
Proof.
  intros run; subst run.
  run_execute_query; cbn in *.
  all: split; [ intros ? ? HIn; split_events; reflexivity | ].
  all: split; [ intros ? HIn; split_events; reflexivity | ].
  all: intros ? Hother.
  all: rewrite ?lookup_insert_ne, ?lookup_delete_ne by congruence; reflexivity.
Qed.

(** X5.  When the engine reports no abort reason and a response is returned,
    the response carries the bindings of the engine, and it has a [next]
    exactly when the engine is not done. *)
Theorem page_carries_the_engine_answer query dg nl mt url st
    bindings saved_plan is_done resp :
  let run := execute_query w query dg nl mt url st in
  engine_answered w (events run) (bindings, saved_plan, is_done, None) →
  outcome run = Ok resp →
  bindings_of resp = Some bindings
  ∧ (if is_done then next_of resp = None else is_Some (next_of resp)).
Proof.
  intros run; subst run.
  run_execute_query; cbn.
  all: intros (plan & q & m & HIn & Hanswer) Hresp; simplify_eq.
  all: split_events; try same_answer.
  all: cbn; split; eauto.
Qed.

(** X6.  Without a continuation, the [cardinalities] of the response are the
    ones [parse_query] returned for the query. *)
Theorem first_page_carries_parser_cardinalities query dg mt url st resp stats :
  outcome (execute_query w query dg None mt url st) = Ok resp →
  stats_of resp = Some stats →
  ∃ name plan,
    format_graph_uri w dg url = Ok name
    ∧ parse_query w query name url = Ok (plan, cardinalities stats).
Proof.
  run_execute_query; cbn.
  all: intros Hresp; simplify_eq; cbn; intros Hstats; simplify_eq; cbn; eauto.
Qed.

(** One pass through [execute_query] for the ids of the store. *)
Lemma execute_query_store_keys query dg nl mt url st :
  store_keys_drawn w st →
  store_keys_drawn w (final (execute_query w query dg nl mt url st)).
Proof.
  unfold store_keys_drawn. intros Hinv.
  run_execute_query; cbn.
  all: intros plan_id Hheld; keys_drawn.
Qed.

(** X8.  If every id of the store is a UUID the server drew, this is still so
    after [execute_query]: a plan is saved under a new UUID or under an id
    the store already held. *)
Theorem execute_query_keeps_store_keys_drawn query dg nl mt url st :
  store_keys_drawn w st →
  store_keys_drawn w (final (execute_query w query dg nl mt url st)).
Proof. apply execute_query_store_keys. Qed.

Lemma first_suspension_id query dg mt url st plan_id token :
  In (SavePlan plan_id token) (events (execute_query w query dg None mt url st)) →
  plan_id = uuids w (uuids_drawn st).
Proof.
  run_execute_query; cbn; intros HIn; split_events; reflexivity.
Qed.

(** X9.  If every id of the store is a UUID the server drew and [uuid4] never
    repeats itself, the first suspension of a query saves its plan under an
    id the store did not hold. *)
Theorem first_suspension_overwrites_nothing query dg mt url st plan_id token :
  store_keys_drawn w st →
  (∀ m n, uuids w m = uuids w n → m = n) →
  In (SavePlan plan_id token) (events (execute_query w query dg None mt url st)) →
  plans st !! plan_id = None.
Proof.
  intros Hinv Hinj HIn.
  apply first_suspension_id in HIn as ->.
  destruct (plans st !! uuids w (uuids_drawn st)) as [held|] eqn:Hheld; [ | reflexivity ].
  destruct (Hinv _ (mk_is_Some _ _ Hheld)) as (n & Hn & Heq).
  apply Hinj in Heq. lia.
Qed.

(** What a suspended request hands out stands for the encoded plan. *)
Lemma suspension_hands_out query dg nl mt url st bindings saved_plan token resp :
  let run := execute_query w query dg nl mt url st in
  engine_answered w (events run) (bindings, saved_plan, false, None) →
  encode_saved_plan w saved_plan = Ok token →
  outcome run = Ok resp →
  ∃ next, next_of resp = Some next ∧ presented_plan w (final run) next = Some token.
Proof.
  intros run; subst run. unfold presented_plan.
  run_execute_query; cbn.
  all: intros (plan & q & m & HIn & Hanswer) Hencode Hresp; simplify_eq.
  all: split_events; try same_answer; try congruence.
  all: cbn; eexists; split; [ reflexivity | ].
  all: rewrite ?lookup_insert_eq; congruence.
Qed.

(** A request decodes what its continuation stands for, and executes the
    plan that this loads. *)
Lemma presented_plan_is_run query dg next mt url st name g token :
  format_graph_uri w dg url = Ok name →
  has_graph w name = Ok true →
  get_graph w name = Ok (Some g) →
  presented_plan w st next = Some token →
  let run := execute_query w query dg (Some next) mt url st in
  In (DecodeSavedPlan token) (events run)
  ∧ ∀ decoded plan,
      decode_saved_plan w token = Ok decoded →
      load w decoded = Ok plan →
      In (EngineExecute plan (inject_Z (quota g) / 1000)%Q (max_results g)) (events run).
Proof.
  intros Hname Hknown Hgraph Hpresented run; subst run.
  unfold presented_plan in Hpresented.
  destruct (is_stateless w) eqn:Hmode; simplify_eq.
  all: run_execute_query; cbn.
  all: split; [ in_events | ].
  all: intros decoded plan' Hdecode Hload; simplify_eq.
  all: repeat match goal with
       | H : ?call = _, H' : ?call = _ |- _ => rewrite H in H'; simplify_eq
       end.
  all: in_events.
Qed.

(** X10.  What a suspended request hands out as [next] is accepted back: a
    later request for the same graph that presents it decodes the very
    token that was encoded, and executes the plan that this token loads,
    on a stateless and on a stateful dataset alike. *)
Theorem handed_out_token_is_accepted query dg nl mt url st
    bindings saved_plan token resp query' mt' :
  let run := execute_query w query dg nl mt url st in
  engine_answered w (events run) (bindings, saved_plan, false, None) →
  encode_saved_plan w saved_plan = Ok token →
  outcome run = Ok resp →
  ∃ next,
    next_of resp = Some next
    ∧ In (DecodeSavedPlan token)
         (events (execute_query w query' dg (Some next) mt' url (final run)))
    ∧ ∀ decoded plan,
        decode_saved_plan w token = Ok decoded →
        load w decoded = Ok plan →
        ∃ q m,
          In (EngineExecute plan q m)
             (events (execute_query w query' dg (Some next) mt' url (final run))).
Proof.
  intros run Hanswer Hencode Hresp.
  destruct (suspension_hands_out _ _ _ _ _ _ _ _ _ _ Hanswer Hencode Hresp)
    as (next & Hnext & Hpresented).
  destruct Hanswer as (plan & q & m & HIn & _).
  destruct (engine_call_inv _ _ _ _ _ _ _ _ _ _ HIn)
    as (name & g & Hname & Hknown & Hgraph & _).
  destruct (presented_plan_is_run query' dg next mt' url (final run) name g token
              Hname Hknown Hgraph Hpresented) as [Hdecoded Hrun].
  exists next. split; [ exact Hnext | ]. split; [ exact Hdecoded | ].
  intros decoded plan' Hdecode Hload. eauto.
Qed.

(** X7.  A page of results is encoded after the mimetype: W3C JSON for
    [application/sparql-results+json], XML for [application/xml] and
    [application/sparql-results+xml], raw JSON for [application/json], and
    the HTML template for anything else, a missing mimetype included. *)
Theorem response_format_follows_mimetype query dg nl mt url st resp :
  outcome (execute_query w query dg nl mt url st) = Ok resp →
  is_Some (bindings_of resp) →
  match resp with
  | Response (w3c_json_streaming _ _ _ u) content_type status headers =>
      mt = Some "application/sparql-results+json"
      ∧ content_type = Some "application/json" ∧ status = None ∧ headers = [] ∧ u = url
  | Response (w3c_xml _ _ _) content_type status headers =>
      (mt = Some "application/xml" ∨ mt = Some "application/sparql-results+xml")
      ∧ content_type = Some "application/xml" ∧ status = None ∧ headers = []
  | Response (raw_json_streaming _ _ _ u) content_type status headers =>
      mt = Some "application/json"
      ∧ content_type = Some "application/json" ∧ status = None ∧ headers = [] ∧ u = url
  | render_template (sage_page q d _ _ _) =>
      q = query ∧ d = dg
      ∧ mt ≠ Some "application/sparql-results+json"
      ∧ mt ≠ Some "application/xml"
      ∧ mt ≠ Some "application/sparql-results+xml"
      ∧ mt ≠ Some "application/json"
  | _ => False
  end.
Proof.
  run_execute_query; cbn.
  all: intros Hresp Hbindings; simplify_eq; cbn in *.
  all: try (destruct Hbindings; discriminate).
  all: repeat match goal with
       | H : bool_decide _ = true |- _ => apply bool_decide_eq_true_1 in H
       | H : bool_decide _ = false |- _ => apply bool_decide_eq_false_1 in H
       end.
  all: repeat split; auto.
Qed.

(** X2.  For a graph the dataset does not have, [execute_query] returns the
    error page and does nothing else: no call is recorded and the state is
    the one it started from. *)
Theorem unknown_graph_is_refused query dg nl mt url st name :
  format_graph_uri w dg url = Ok name →
  has_graph w name = Ok false →
  page_fault w (sage_http_error "No RDF graph matching the default URI provided was found.")
  = None →
  execute_query w query dg nl mt url st
  = (Ok (sage_http_error "No RDF graph matching the default URI provided was found."),
     st, []).
Proof.
  intros Hname Hknown Hpage.
  unfold execute_query. autounfold with handlers.
  rewrite Hname. cbn. rewrite Hknown. cbn. rewrite Hpage. reflexivity.
Qed.

(** X15.  If every id of the store is a UUID the server drew, this is still so
    after any request to [/sparql]. *)
Theorem sparql_index_keeps_store_keys_drawn request st :
  store_keys_drawn w st →
  store_keys_drawn w (final (sparql_index w request st)).
Proof.
  intros Hinv.
  run_sparql_index_only; cbn; try exact Hinv.
  all: match goal with
       | H : execute_query _ ?q ?dg ?nl ?mt ?url ?s0 = (_, ?s, _)
         |- store_keys_drawn _ ?s =>
           let Hkept := fresh "Hkept" in
           pose proof (execute_query_store_keys q dg nl mt url s0 Hinv)
             as Hkept;
           rewrite H in Hkept; exact Hkept
       end.
Qed.

(** X11.  [sparql_index] refuses a malformed request with the error page, and
    executes nothing: a GET without graph, or with neither query nor
    continuation, an empty parameter counting as missing; and any request
    that is neither a GET nor a JSON POST. *)
Theorem malformed_request_is_refused request url st :
  malformed_request request →
  secure_url w (base_url request) = Ok url →
  page_fault w (sage_http_error invalid_request) = None →
  sparql_index w request st = (Ok (sage_http_error invalid_request), st, []).
Proof.
  intros Hmalformed Hurl Hpage.
  unfold sparql_index, sparql_index_body.
  autounfold with handlers. rewrite Hurl. cbn.
  destruct Hmalformed as [ [Hmethod Hmissing] | [Hmethod Hother] ].
  - rewrite Hmethod. cbn.
    destruct Hmissing as [ Hgraph | [Hquery Hnext] ].
    + rewrite Hgraph. cbn. rewrite !orb_true_r. cbn. rewrite Hpage. reflexivity.
    + rewrite Hquery, Hnext. cbn. rewrite Hpage. reflexivity.
  - rewrite (bool_decide_eq_false_2 _ Hmethod). cbn.
    destruct Hother as [ Hpost | Hjson ].
    + rewrite (bool_decide_eq_false_2 _ Hpost). cbn. rewrite Hpage. reflexivity.
    + rewrite Hjson, andb_false_r. cbn. rewrite Hpage. reflexivity.
Qed.

(** X12.  A JSON POST whose payload the schema rejects is answered with
    status 400 and the formatted errors, and nothing is executed. *)
Theorem invalid_payload_is_refused request url payload post_query errors st :
  method request = "POST" →
  is_json request = true →
  secure_url w (base_url request) = Ok url →
  get_json request = Ok payload →
  SageSparqlQuery_load w payload = Ok (post_query, Some errors) →
  (0 < size errors)%nat →
  body_fault w (format_marshmallow_errors errors) = None →
  sparql_index w request st
  = (Ok (Response (format_marshmallow_errors errors) None (Some 400) []), st, []).
Proof.
  intros Hmethod Hjson Hurl Hpayload Hload Herrors Hbody.
  unfold sparql_index, sparql_index_body.
  autounfold with handlers.
  rewrite Hurl, Hmethod, Hjson, Hpayload. cbn.
  rewrite Hload. cbn.
  rewrite (bool_decide_eq_true_2 _ Herrors). rewrite Hbody. reflexivity.
Qed.

(** X13.  When [sage_http_error] does not raise, [sparql_index] either returns a
    response or ends in [abort(500)]: no other exception leaves it. *)
Theorem sparql_index_answers_or_aborts_500 request st :
  (∀ text, page_fault w (sage_http_error text) = None) →
  (∃ resp, outcome (sparql_index w request st) = Ok resp)
  ∨ outcome (sparql_index w request st) = Raise (HTTPException 500).
Proof.
  intros Hpage.
  unfold sparql_index, try_except.
  destruct (sparql_index_body _ _ _ _ w request _ st) as [[[resp|err] st1] evs].
  - left. eexists. reflexivity.
  - destruct err; autounfold with handlers; cbn; rewrite ?Hpage; cbn; eauto.
Qed.

(** X14.  On a well-formed request [sparql_index] is [execute_query] on the
    arguments of the request: the same final state, the same response when
    it returns, the error page when it raises [UnsupportedSPARQL], and
    [abort(500)] otherwise, the error being logged. *)
Theorem sparql_index_wraps_execute_query request query dg nl url st :
  well_formed_request w request query dg nl →
  secure_url w (base_url request) = Ok url →
  let inner := execute_query w query dg nl (best_match request mimetypes_index) url st in
  let run := sparql_index w request st in
  final run = final inner
  ∧ match outcome inner with
    | Ok resp => outcome run = Ok resp ∧ events run = events inner
    | Raise (UnsupportedSPARQL msg) =>
        events run = events inner ++ [LoggingError (UnsupportedSPARQL msg)]
        ∧ (page_fault w (sage_http_error msg) = None →
           outcome run = Ok (sage_http_error msg))
    | Raise err =>
        events run = events inner ++ [LoggingError err]
        ∧ outcome run = Raise (HTTPException 500)
    end.
Proof.
  intros Hrequest Hurl inner run. subst inner run.
  destruct (execute_query w query dg nl _ url st) as [[inner_out inner_st] inner_evs]
    eqn:Hinner.
  destruct Hrequest as
      [ (Hmethod & Hquery & Hdg & Hnext & Hsome & Hany)
      | (Hmethod & Hjson & payload & post_query & errs & Hpayload & Hload & Herrs
         & Hq & Hd & Hn) ].
  - destruct dg as [uri|]; [ clear Hsome | done ].
    destruct Hany as [Hany | Hany].
    + destruct query as [text|]; [ clear Hany | done ].
      run_sparql_index_only; cbn; rewrite ?app_nil_r; try done.
      all: split; [ done | ]; split; [ done | ]; congruence.
    + destruct nl as [next|]; [ clear Hany | done ].
      run_sparql_index_only; cbn; rewrite ?app_nil_r; try done.
      all: split; [ done | ]; split; [ done | ]; congruence.
  - subst nl.
    run_sparql_index_only; cbn; rewrite ?app_nil_r; try done.
    all: split; [ done | ]; split; [ done | ]; congruence.
Qed.

(** What the deprecated route calls and what it leaves in the store, read
    off one pass through [sparql_query]. *)
Lemma sparql_query_calls request graph_name st :
  let run := sparql_query w request graph_name st in
  (∀ plan q m,
      In (EngineExecute plan q m) (events run) →
      ∃ g, get_graph w graph_name = Ok (Some g)
           ∧ q = (inject_Z (quota g) / 1000)%Q
           ∧ m = max_results g)
  ∧ (∀ bindings saved_plan is_done reason,
      engine_answered w (events run) (bindings, saved_plan, is_done, Some reason) →
      ∃ g, get_graph w graph_name = Ok (Some g)
           ∧ In (GraphAbort g) (events run)
           ∧ (∀ g', ¬ In (GraphCommit g') (events run))
           ∧ (∀ plan_id token, ¬ In (SavePlan plan_id token) (events run))
           ∧ plans (final run) = plans st
           ∧ (∀ resp, outcome run = Ok resp →
                resp = sage_http_error (abort_text reason)))
  ∧ ((plans (final run) = plans st ∧ uuids_drawn (final run) = uuids_drawn st)
     ∨ (is_stateless w = false
        ∧ uuids_drawn (final run) = S (uuids_drawn st)
        ∧ ∃ token,
            plans (final run) = <[uuids w (uuids_drawn st) := token]> (plans st)))
  ∧ (∀ body content_type status headers,
      outcome run = Ok (Response body content_type status headers) →
      (∀ b n s u, body ≠ w3c_json_streaming b n s u)
      ∧ ((∃ err, body = format_marshmallow_errors err ∧ status = Some 400 ∧ headers = [])
         ∨ (status = None ∧ headers = [deprecation_warning])))
  ∧ match get_graph w graph_name with
    | Raise e => run = (Raise e, st, [])
    | Ok None => run = (Raise (HTTPException 404), st, [])
    | Ok (Some g) =>
        ∀ url,
          secure_url w (req_url request) = Ok url →
          abort_fault w g = None →
          match outcome run with
          | Ok _ =>
              transactions (events run) = []
              ∨ transactions (events run) = [GraphCommit g]
              ∨ transactions (events run) = [GraphAbort g]
          | Raise e =>
              e = HTTPException 500
              ∧ (transactions (events run) = [GraphAbort g]
                 ∨ transactions (events run) = [GraphCommit g; GraphAbort g]
                 ∨ transactions (events run) = [GraphAbort g; GraphAbort g])
          end
    end.
Proof.
  intros run; subst run.
  run_sparql_query; cbn.
  all: split; [ | split; [ | split; [ | split ] ] ].
  all: first
    [ (* the engine call *)
      intros ? ? ? HIn; split_events; eauto; fail
    | (* an abort reason *)
      intros ? ? ? ? (? & ? & ? & HIn & Hanswer);
      split_events; try same_answer; try congruence;
      (eexists; split; [ reflexivity | ]; split; [ in_events | ];
       split; [ intros ? HIn'; split_events | ];
       split; [ intros ? ? HIn'; split_events | ];
       split; [ reflexivity | ];
       intros ? Hresp; simplify_eq; reflexivity)
    | (* the store *)
      left; split; reflexivity
    | right; split; [ reflexivity | ]; split; [ reflexivity | ]; eexists; reflexivity
    | (* the response *)
      intros ? ? ? ? Hresp; simplify_eq;
      (split; [ intros ? ? ? ?; discriminate | ];
       first [ left; eexists; repeat split; reflexivity | right; split; reflexivity ])
    | (* the outcome *)
      reflexivity
    | intros ? Hurl Hfault; simplify_eq;
      first [ left; reflexivity | right; left; reflexivity | right; right; reflexivity
            | split; [ reflexivity | ];
              first [ left; reflexivity | right; left; reflexivity
                    | right; right; reflexivity ] ] ].
Qed.

(** X17.  The deprecated route calls the engine with the quota of the graph
    of the route divided by 1000 and with its [max_results]. *)
Theorem deprecated_route_engine_call request graph_name st plan q m :
  In (EngineExecute plan q m) (events (sparql_query w request graph_name st)) →
  ∃ g,
    get_graph w graph_name = Ok (Some g)
    ∧ q = (inject_Z (quota g) / 1000)%Q
    ∧ m = max_results g.
Proof. apply (sparql_query_calls request graph_name st). Qed.

(** X18.  In the deprecated route, when the engine returns an abort reason the
    graph is aborted and never committed, nothing is saved, and a response,
    if one is returned, is the error page for that reason. *)
Theorem deprecated_route_abort request graph_name st bindings saved_plan is_done reason :
  let run := sparql_query w request graph_name st in
  engine_answered w (events run) (bindings, saved_plan, is_done, Some reason) →
  ∃ g,
    get_graph w graph_name = Ok (Some g)
    ∧ In (GraphAbort g) (events run)
    ∧ (∀ g', ¬ In (GraphCommit g') (events run))
    ∧ (∀ plan_id token, ¬ In (SavePlan plan_id token) (events run))
    ∧ plans (final run) = plans st
    ∧ (∀ resp, outcome run = Ok resp → resp = sage_http_error (abort_text reason)).
Proof. apply (sparql_query_calls request graph_name st). Qed.

(** X19.  The deprecated route leaves the store as it was or, on a stateful
    dataset, adds one plan under the next UUID; it removes nothing. *)
Theorem deprecated_route_only_adds_plans request graph_name st :
  let run := sparql_query w request graph_name st in
  (plans (final run) = plans st ∧ uuids_drawn (final run) = uuids_drawn st)
  ∨ (is_stateless w = false
     ∧ uuids_drawn (final run) = S (uuids_drawn st)
     ∧ ∃ token,
         plans (final run) = <[uuids w (uuids_drawn st) := token]> (plans st)).
Proof. apply (sparql_query_calls request graph_name st). Qed.

(** X20.  A [Response] of the deprecated route is never encoded as W3C JSON,
    whatever the mimetype: the first test on the mimetype is overwritten by
    the second.  It is the 400 of a rejected payload, or it carries the
    deprecation warning in its headers. *)
Theorem deprecated_route_response request graph_name st body content_type status headers :
  outcome (sparql_query w request graph_name st)
  = Ok (Response body content_type status headers) →
  (∀ b n s u, body ≠ w3c_json_streaming b n s u)
  ∧ ((∃ err, body = format_marshmallow_errors err ∧ status = Some 400 ∧ headers = [])
     ∨ (status = None ∧ headers = [deprecation_warning])).
Proof. apply (sparql_query_calls request graph_name st). Qed.

(** X16.  The deprecated route raises what [get_graph] raises, ends in
    [abort(404)] for a graph the dataset does not have, both without any
    other call; and for a graph it has, when [graph.abort()] does not
    raise, it returns after at most one transaction call or ends in
    [abort(500)] after an abort. *)
Theorem deprecated_route_outcomes request graph_name st :
  let run := sparql_query w request graph_name st in
  match get_graph w graph_name with
  | Raise e => run = (Raise e, st, [])
  | Ok None => run = (Raise (HTTPException 404), st, [])
  | Ok (Some g) =>
      ∀ url,
        secure_url w (req_url request) = Ok url →
        abort_fault w g = None →
        match outcome run with
        | Ok _ =>
            transactions (events run) = []
            ∨ transactions (events run) = [GraphCommit g]
            ∨ transactions (events run) = [GraphAbort g]
        | Raise e =>
            e = HTTPException 500
            ∧ (transactions (events run) = [GraphAbort g]
               ∨ transactions (events run) = [GraphCommit g; GraphAbort g]
               ∨ transactions (events run) = [GraphAbort g; GraphAbort g])
        end
  end.
Proof. apply (sparql_query_calls request graph_name st). Qed.

(** X21.  If every id of the store is a UUID the server drew, this is still so
    after any request to the deprecated route. *)
Theorem sparql_query_keeps_store_keys_drawn request graph_name st :
  store_keys_drawn w st →
  store_keys_drawn w (final (sparql_query w request graph_name st)).
Proof.
  intros Hinv plan_id Hheld.
  destruct (sparql_query_calls request graph_name st)
    as (_ & _ & [ [Hplans Hdrawn] | (_ & Hdrawn & token & Hplans) ] & _);
    rewrite Hdrawn; rewrite Hplans in Hheld.
  - apply Hinv, Hheld.
  - rewrite lookup_insert in Hheld. case_decide.
    + subst. exists (uuids_drawn st). split; [ lia | reflexivity ].
    + destruct (Hinv _ Hheld) as (n & Hn & ->). exists n. split; [ lia | reflexivity ].
Qed.

(** X22.  A GET (or a request that is not JSON) to the deprecated route never
    executes a query and leaves the state as it was.  The page it returns
    shows the description of the graph with ["@id"] set to the URL, the
    three VoID descriptions, the example queries marked for publication,
    and, when the graph is configured for publication, the description
    dumped before ["@id"] was added. *)
Theorem deprecated_get_shows_dataset request graph_name st :
  method request = "GET" ∨ is_json request = false →
  let run := sparql_query w request graph_name st in
  (∀ ev, In ev (events run) → is_query_call ev = false)
  ∧ final run = st
  ∧ (∀ resp,
      outcome run = Ok resp →
      ∃ g url described config publish nt ttl xml,
        get_graph w graph_name = Ok (Some g)
        ∧ secure_url w (req_url request) = Ok url
        ∧ graph_describe w g url = Ok described
        ∧ graph_config w g = Ok config
        ∧ config !! "publish" = Some publish
        ∧ void_describe w url g "ntriples" = Ok nt
        ∧ void_describe w url g "turtle" = Ok ttl
        ∧ void_describe w url g "xml" = Ok xml
        ∧ ∃ to_publish,
            resp = render_template
                     (sage_dataset (<["@id" := url]> described)
                        (<["nt" := nt]> (<["ttl" := ttl]> (<["xml" := xml]> ∅)))
                        to_publish
                        (List.filter eq_publish (example_queries g)))
            ∧ if publish : bool
              then ∃ dumped, dumps w described = Ok dumped ∧ to_publish = Some dumped
              else to_publish = None).
Proof.
  intros Hget run; subst run.
  destruct Hget as [Hmethod | Hjson].
  - run_sparql_query; cbn.
    all: split; [ intros ? HIn; split_events; reflexivity | ].
    all: split; [ reflexivity | ].
    all: intros ? Hresp; simplify_eq.
    all: eexists _, _, _, _, _, _, _, _;
      repeat (split; [ first [ reflexivity | eassumption ] | ]).
    all: eexists; split; [ reflexivity | ]; cbn; eauto.
  - run_sparql_query; cbn.
    all: split; [ intros ? HIn; split_events; reflexivity | ].
    all: split; [ reflexivity | ].
    all: intros ? Hresp; simplify_eq.
    all: eexists _, _, _, _, _, _, _, _;
      repeat (split; [ first [ reflexivity | eassumption ] | ]).
    all: eexists; split; [ reflexivity | ]; cbn; eauto.
Qed.

End Further.

(** ** The further properties at work on the small dataset *)

(** The UUIDs of the small dataset are all different. *)
Lemma demo_uuids_differ stateless engine encode m n :
  uuids (Demo.world stateless engine encode) m
  = uuids (Demo.world stateless engine encode) n →
  m = n.
Proof.
  cbn. intros Heq. apply String.app_inj in Heq. apply pretty_nat_inj in Heq. exact Heq.
Qed.

(** The stores of the small dataset hold drawn UUIDs only. *)
Lemma demo_resumed_keys_drawn stateless engine encode :
  store_keys_drawn (Demo.world stateless engine encode) Demo.resumed.
Proof.
  intros plan_id [token Hheld]. cbn in Hheld.
  apply lookup_singleton_Some in Hheld as [<- _].
  exists 7%nat. split; [ cbn; lia | reflexivity ].
Qed.

Lemma stateless_query_leaves_store_alone_witness :
  is_stateless (Demo.stateless Demo.suspending) = true
  ∧ plans (final (execute_query (Demo.stateless Demo.suspending)
                    None (Some "bsbm") (Some "rest of q") Demo.json Demo.url
                    Scenario.two_plans))
    = plans Scenario.two_plans.
Proof.
  split; [ reflexivity | ].
  exact (proj1 (stateless_query_leaves_store_alone (Demo.stateless Demo.suspending)
                  None (Some "bsbm") (Some "rest of q") Demo.json Demo.url
                  Scenario.two_plans eq_refl)).
Defined.

Lemma only_the_continuation_entry_changes_witness :
  "uuid-3" ≠ continuation_id (Demo.stateful Demo.finishing) Scenario.two_plans
               (Some "uuid-7")
  ∧ plans (final (execute_query (Demo.stateful Demo.finishing)
                    None (Some "bsbm") (Some "uuid-7") Demo.json Demo.url
                    Scenario.two_plans))
    !! "uuid-3"
    = plans Scenario.two_plans !! "uuid-3".
Proof.
  assert ("uuid-3" ≠ continuation_id (Demo.stateful Demo.finishing) Scenario.two_plans
                       (Some "uuid-7")) as Hother by (cbn; discriminate).
  split; [ exact Hother | ].
  exact (proj2 (proj2 (only_the_continuation_entry_changes (Demo.stateful Demo.finishing)
                         None (Some "bsbm") (Some "uuid-7") Demo.json Demo.url
                         Scenario.two_plans))
           "uuid-3" Hother).
Defined.

Lemma page_carries_the_engine_answer_witness :
  ∃ resp,
    outcome (execute_query (Demo.stateless Demo.finishing)
               Demo.select_all (Some "bsbm") None Demo.json Demo.url Demo.start)
    = Ok resp
    ∧ bindings_of resp = Some ["s1"; "s2"]
    ∧ next_of resp = None.
Proof.
  eexists. split; [ vm_compute; reflexivity | ].
  refine (page_carries_the_engine_answer (Demo.stateless Demo.finishing)
            Demo.select_all (Some "bsbm") None Demo.json Demo.url Demo.start
            ["s1"; "s2"] None true _ _ _).
  - exists "SELECT * WHERE { ?s ?p ?o }", (inject_Z 75000 / 1000)%Q, 2000.
    split; [ vm_compute; auto | reflexivity ].
  - vm_compute; reflexivity.
Defined.

Lemma first_page_carries_parser_cardinalities_witness :
  ∃ resp stats name plan,
    outcome (execute_query (Demo.stateless Demo.finishing)
               Demo.select_all (Some "bsbm") None Demo.json Demo.url Demo.start)
    = Ok resp
    ∧ stats_of resp = Some stats
    ∧ format_graph_uri (Demo.stateless Demo.finishing) (Some "bsbm") Demo.url = Ok name
    ∧ parse_query (Demo.stateless Demo.finishing) Demo.select_all name Demo.url
      = Ok (plan, cardinalities stats).
Proof.
  destruct (outcome (execute_query (Demo.stateless Demo.finishing)
                       Demo.select_all (Some "bsbm") None Demo.json Demo.url Demo.start))
    as [resp|err] eqn:Hresp; [ | vm_compute in Hresp; discriminate Hresp ].
  destruct (stats_of resp) as [stats|] eqn:Hstats;
    [ | vm_compute in Hresp; injection Hresp as <-; discriminate Hstats ].
  destruct (first_page_carries_parser_cardinalities (Demo.stateless Demo.finishing)
              Demo.select_all (Some "bsbm") Demo.json Demo.url Demo.start resp stats
              Hresp Hstats) as (name & plan & Hname & Hparsed).
  exists resp, stats, name, plan. auto.
Defined.

Lemma response_format_follows_mimetype_witness :
  ∃ bindings next_page stats,
    outcome (execute_query (Demo.stateless Demo.finishing)
               Demo.select_all (Some "bsbm") None
               (Some "application/sparql-results+xml") Demo.url Demo.start)
    = Ok (Response (w3c_xml bindings next_page stats) (Some "application/xml") None []).
Proof.
  destruct (outcome (execute_query (Demo.stateless Demo.finishing)
                       Demo.select_all (Some "bsbm") None
                       (Some "application/sparql-results+xml") Demo.url Demo.start))
    as [resp|err] eqn:Hresp; [ | vm_compute in Hresp; discriminate Hresp ].
  assert (is_Some (bindings_of resp)) as Hpage.
  { vm_compute in Hresp. injection Hresp as <-. eexists. reflexivity. }
  pose proof (response_format_follows_mimetype (Demo.stateless Demo.finishing)
                Demo.select_all (Some "bsbm") None
                (Some "application/sparql-results+xml") Demo.url Demo.start resp
                Hresp Hpage) as Hformat.
  destruct resp as [ [ ? ? ? ? | bindings next_page stats | ? ? ? ? | ? ] ? ? ? | ? | [ ? ? ? ? ? | ? ? ? ? ] ];
    try (destruct Hformat; fail).
  - destruct Hformat as (Hmt & _). discriminate Hmt.
  - destruct Hformat as (_ & -> & -> & ->). eauto.
  - destruct Hformat as (Hmt & _). discriminate Hmt.
  - destruct Hformat as (_ & _ & _ & _ & Hmt & _). destruct Hmt. reflexivity.
Defined.

Lemma execute_query_keeps_store_keys_drawn_witness :
  store_keys_drawn (Demo.stateful Demo.suspending) Demo.resumed
  ∧ store_keys_drawn (Demo.stateful Demo.suspending)
      (final (execute_query (Demo.stateful Demo.suspending)
                Demo.select_all (Some "bsbm") None Demo.json Demo.url Demo.resumed)).
Proof.
  split; [ apply demo_resumed_keys_drawn | ].
  apply (execute_query_keeps_store_keys_drawn (Demo.stateful Demo.suspending)
           Demo.select_all (Some "bsbm") None Demo.json Demo.url Demo.resumed).
  apply demo_resumed_keys_drawn.
Defined.

Lemma first_suspension_overwrites_nothing_witness :
  In (SavePlan "uuid-8" "rest of SELECT * WHERE { ?s ?p ?o }")
     (events (execute_query (Demo.stateful Demo.suspending)
                Demo.select_all (Some "bsbm") None Demo.json Demo.url Demo.resumed))
  ∧ plans Demo.resumed !! "uuid-8" = None.
Proof.
  assert (In (SavePlan "uuid-8" "rest of SELECT * WHERE { ?s ?p ?o }")
            (events (execute_query (Demo.stateful Demo.suspending)
                       Demo.select_all (Some "bsbm") None Demo.json Demo.url
                       Demo.resumed))) as Hsaved by (vm_compute; auto 10).
  split; [ exact Hsaved | ].
  exact (first_suspension_overwrites_nothing (Demo.stateful Demo.suspending)
           Demo.select_all (Some "bsbm") Demo.json Demo.url Demo.resumed
           "uuid-8" "rest of SELECT * WHERE { ?s ?p ?o }"
           (demo_resumed_keys_drawn _ _ _) (demo_uuids_differ _ _ _) Hsaved).
Defined.

Lemma handed_out_token_is_accepted_witness :
  ∃ resp next,
    outcome (execute_query (Demo.stateful Demo.suspending)
               Demo.select_all (Some "bsbm") None Demo.json Demo.url Demo.start)
    = Ok resp
    ∧ next_of resp = Some next
    ∧ In (DecodeSavedPlan "rest of SELECT * WHERE { ?s ?p ?o }")
         (events (execute_query (Demo.stateful Demo.suspending)
                    None (Some "bsbm") (Some next) Demo.json Demo.url
                    (final (execute_query (Demo.stateful Demo.suspending)
                              Demo.select_all (Some "bsbm") None Demo.json Demo.url
                              Demo.start)))).
Proof.
  destruct (outcome (execute_query (Demo.stateful Demo.suspending)
                       Demo.select_all (Some "bsbm") None Demo.json Demo.url Demo.start))
    as [resp|err] eqn:Hresp; [ | vm_compute in Hresp; discriminate Hresp ].
  assert (engine_answered (Demo.stateful Demo.suspending)
            (events (execute_query (Demo.stateful Demo.suspending)
                       Demo.select_all (Some "bsbm") None Demo.json Demo.url Demo.start))
            (["s1"], Some "rest of SELECT * WHERE { ?s ?p ?o }", false, None))
    as Hanswer.
  { exists "SELECT * WHERE { ?s ?p ?o }", (inject_Z 75000 / 1000)%Q, 2000.
    split; [ vm_compute; auto | reflexivity ]. }
  destruct (handed_out_token_is_accepted (Demo.stateful Demo.suspending)
              Demo.select_all (Some "bsbm") None Demo.json Demo.url Demo.start
              ["s1"] (Some "rest of SELECT * WHERE { ?s ?p ?o }")
              "rest of SELECT * WHERE { ?s ?p ?o }" resp None Demo.json
              Hanswer eq_refl Hresp) as (next & Hnext & Hdecoded & _).
  exists resp, next. auto.
Defined.

Lemma unknown_graph_is_refused_witness :
  has_graph (Demo.stateless Demo.finishing) "dbpedia" = Ok false
  ∧ execute_query (Demo.stateless Demo.finishing)
      Demo.select_all (Some "dbpedia") None Demo.json Demo.url Scenario.two_plans
    = (Ok (sage_http_error "No RDF graph matching the default URI provided was found."),
       Scenario.two_plans, []).
Proof.
  split; [ reflexivity | ].
  exact (unknown_graph_is_refused (Demo.stateless Demo.finishing)
           Demo.select_all (Some "dbpedia") None Demo.json Demo.url Scenario.two_plans
           "dbpedia" eq_refl eq_refl eq_refl).
Defined.

Lemma malformed_request_is_refused_witness :
  malformed_request Scenario.empty_graph_request
  ∧ sparql_index (Demo.stateless Demo.finishing) Scenario.empty_graph_request Demo.start
    = (Ok (sage_http_error invalid_request), Demo.start, []).
Proof.
  assert (malformed_request Scenario.empty_graph_request) as Hmalformed.
  { left. split; [ reflexivity | ]. left. vm_compute. reflexivity. }
  split; [ exact Hmalformed | ].
  exact (malformed_request_is_refused (Demo.stateless Demo.finishing)
           Scenario.empty_graph_request "http://localhost/sparql" Demo.start
           Hmalformed eq_refl eq_refl).
Defined.

Lemma invalid_payload_is_refused_witness :
  SageSparqlQuery_load (Scenario.validating Demo.finishing) {[ "defaultGraph" := Some "bsbm" ]}
  = Ok ({[ "defaultGraph" := Some "bsbm" ]},
        Some {[ "query" := "Missing data for required field." ]})
  ∧ sparql_index (Scenario.validating Demo.finishing) Scenario.no_query_request Demo.start
    = (Ok (Response
             (format_marshmallow_errors {[ "query" := "Missing data for required field." ]})
             None (Some 400) []),
       Demo.start, []).
Proof.
  assert (SageSparqlQuery_load (Scenario.validating Demo.finishing)
            {[ "defaultGraph" := Some "bsbm" ]}
          = Ok ({[ "defaultGraph" := Some "bsbm" ]},
                Some {[ "query" := "Missing data for required field." ]})) as Hload
    by (vm_compute; reflexivity).
  split; [ exact Hload | ].
  refine (invalid_payload_is_refused (Scenario.validating Demo.finishing)
            Scenario.no_query_request "http://localhost/sparql"
            {[ "defaultGraph" := Some "bsbm" ]} {[ "defaultGraph" := Some "bsbm" ]}
            {[ "query" := "Missing data for required field." ]} Demo.start
            eq_refl eq_refl eq_refl eq_refl Hload _ eq_refl).
  vm_compute. lia.
Defined.

Lemma sparql_index_answers_or_aborts_500_witness :
  outcome (sparql_index (Demo.stateless Demo.finishing) Demo.tampered Demo.start)
  = Raise (HTTPException 500).
Proof.
  destruct (sparql_index_answers_or_aborts_500 (Demo.stateless Demo.finishing)
              Demo.tampered Demo.start (fun _ => eq_refl)) as [ [resp Hresp] | Haborted ].
  - vm_compute in Hresp. discriminate Hresp.
  - exact Haborted.
Defined.

Lemma sparql_index_wraps_execute_query_witness :
  well_formed_request (Demo.stateless Demo.finishing) Scenario.first_request
    Demo.select_all (Some "bsbm") None
  ∧ final (sparql_index (Demo.stateless Demo.finishing) Scenario.first_request Demo.start)
    = final (execute_query (Demo.stateless Demo.finishing)
               Demo.select_all (Some "bsbm") None Demo.json
               "http://localhost/sparql" Demo.start).
Proof.
  assert (well_formed_request (Demo.stateless Demo.finishing) Scenario.first_request
            Demo.select_all (Some "bsbm") None) as Hrequest.
  { left. repeat split; try (vm_compute; reflexivity); [ discriminate | ].
    left. discriminate. }
  split; [ exact Hrequest | ].
  exact (proj1 (sparql_index_wraps_execute_query (Demo.stateless Demo.finishing)
                  Scenario.first_request Demo.select_all (Some "bsbm") None
                  "http://localhost/sparql" Demo.start Hrequest eq_refl)).
Defined.

Lemma sparql_index_keeps_store_keys_drawn_witness :
  store_keys_drawn (Demo.stateful Demo.suspending) Demo.resumed
  ∧ store_keys_drawn (Demo.stateful Demo.suspending)
      (final (sparql_index (Demo.stateful Demo.suspending) Scenario.first_request
                Demo.resumed)).
Proof.
  split; [ apply demo_resumed_keys_drawn | ].
  apply (sparql_index_keeps_store_keys_drawn (Demo.stateful Demo.suspending)
           Scenario.first_request Demo.resumed).
  apply demo_resumed_keys_drawn.
Defined.

Lemma deprecated_route_outcomes_witness :
  sparql_query (Demo.stateful Demo.suspending) Demo.old_resume "dbpedia" Demo.resumed
  = (Raise (HTTPException 404), Demo.resumed, [])
  ∧ (transactions
       (events (sparql_query (Demo.stateful Demo.suspending) Demo.old_resume "bsbm"
                  Demo.resumed)) = []
     ∨ transactions
         (events (sparql_query (Demo.stateful Demo.suspending) Demo.old_resume "bsbm"
                    Demo.resumed)) = [GraphCommit Demo.bsbm]
     ∨ transactions
         (events (sparql_query (Demo.stateful Demo.suspending) Demo.old_resume "bsbm"
                    Demo.resumed)) = [GraphAbort Demo.bsbm]).
Proof.
  split.
  - exact (deprecated_route_outcomes (Demo.stateful Demo.suspending) Demo.old_resume
             "dbpedia" Demo.resumed).
  - exact (deprecated_route_outcomes (Demo.stateful Demo.suspending) Demo.old_resume
             "bsbm" Demo.resumed "http://localhost/sparql/bsbm" eq_refl eq_refl).
Defined.

Lemma deprecated_route_engine_call_witness :
  In (EngineExecute "SELECT * WHERE { ?s ?p ?o }" (inject_Z 75000 / 1000)%Q 2000)
     (events (sparql_query (Demo.stateful Demo.suspending) Demo.old_resume "bsbm"
                Demo.resumed))
  ∧ ∃ g,
      get_graph (Demo.stateful Demo.suspending) "bsbm" = Ok (Some g)
      ∧ (inject_Z 75000 / 1000)%Q = (inject_Z (quota g) / 1000)%Q
      ∧ 2000 = max_results g.
Proof.
  assert (In (EngineExecute "SELECT * WHERE { ?s ?p ?o }" (inject_Z 75000 / 1000)%Q 2000)
            (events (sparql_query (Demo.stateful Demo.suspending) Demo.old_resume "bsbm"
                       Demo.resumed))) as HIn by (vm_compute; auto 10).
  split; [ exact HIn | ].
  exact (deprecated_route_engine_call _ _ _ _ _ _ _ HIn).
Defined.

Lemma deprecated_route_abort_witness :
  engine_answered (Demo.stateful Demo.aborting)
    (events (sparql_query (Demo.stateful Demo.aborting) Demo.old_resume "bsbm"
               Demo.resumed))
    ([], None, false, Some "backend unreachable")
  ∧ plans (final (sparql_query (Demo.stateful Demo.aborting) Demo.old_resume "bsbm"
                    Demo.resumed))
    = plans Demo.resumed.
Proof.
  assert (engine_answered (Demo.stateful Demo.aborting)
            (events (sparql_query (Demo.stateful Demo.aborting) Demo.old_resume "bsbm"
                       Demo.resumed))
            ([], None, false, Some "backend unreachable")) as Hanswer.
  { exists "SELECT * WHERE { ?s ?p ?o }", (inject_Z 75000 / 1000)%Q, 2000.
    split; [ vm_compute; auto 10 | reflexivity ]. }
  split; [ exact Hanswer | ].
  destruct (deprecated_route_abort _ _ _ _ _ _ _ _ Hanswer)
    as (g & _ & _ & _ & _ & Hstore & _).
  exact Hstore.
Defined.

Lemma deprecated_route_response_witness :
  ∃ bindings next_page stats url,
    outcome (sparql_query (Demo.stateless Demo.finishing) Scenario.w3c_json_request
               "bsbm" Demo.start)
    = Ok (Response (raw_json_streaming bindings next_page stats url)
            (Some "application/json") None [deprecation_warning]).
Proof.
  destruct (outcome (sparql_query (Demo.stateless Demo.finishing)
                       Scenario.w3c_json_request "bsbm" Demo.start))
    as [resp|err] eqn:Hresp; [ | vm_compute in Hresp; discriminate Hresp ].
  destruct resp as [body content_type status headers | text | template ];
    [ | vm_compute in Hresp; discriminate Hresp .. ].
  destruct (deprecated_route_response (Demo.stateless Demo.finishing)
              Scenario.w3c_json_request "bsbm" Demo.start body content_type status headers
              Hresp) as [Hnot_w3c [ (err & -> & _) | [-> ->] ] ].
  - vm_compute in Hresp. discriminate Hresp.
  - destruct body as [ b n s u | b n s | b n s u | err ].
    + destruct (Hnot_w3c b n s u eq_refl).
    + vm_compute in Hresp. discriminate Hresp.
    + exists b, n, s, u. f_equal. f_equal.
      vm_compute in Hresp. injection Hresp as _ _ _ _ <-. reflexivity.
    + vm_compute in Hresp. discriminate Hresp.
Defined.

Lemma sparql_query_keeps_store_keys_drawn_witness :
  store_keys_drawn (Demo.stateful Demo.suspending) Demo.resumed
  ∧ store_keys_drawn (Demo.stateful Demo.suspending)
      (final (sparql_query (Demo.stateful Demo.suspending) Demo.old_resume "bsbm"
                Demo.resumed)).
Proof.
  split; [ apply demo_resumed_keys_drawn | ].
  apply (sparql_query_keeps_store_keys_drawn (Demo.stateful Demo.suspending)
           Demo.old_resume "bsbm" Demo.resumed).
  apply demo_resumed_keys_drawn.
Defined.

Lemma deprecated_get_shows_dataset_witness :
  method Scenario.bare_request = "GET"
  ∧ final (sparql_query (Demo.stateful Demo.finishing) Scenario.bare_request "bsbm"
             Scenario.two_plans)
    = Scenario.two_plans.
Proof.
  split; [ reflexivity | ].
  exact (proj1 (proj2 (deprecated_get_shows_dataset (Demo.stateful Demo.finishing)
                         Scenario.bare_request "bsbm" Scenario.two_plans
                         (or_introl eq_refl)))).
Defined.
